(** * CherryMusic start-up orchestration

    A shallow embedding of [cherrymusicserver/__init__.py]: the class
    [CherryMusic] that resolves the layered configuration, takes the
    process-id marker, passes the database schema gate, launches the index
    refresh on its own thread and starts the CherryPy server.

    The program's own text (literals, keys, paths) is modelled by
    [string], a line typed by the operator by its Unicode code points,
    the [cfg_override] dict and the file system by stdpp's [gmap], the
    process by a state-and-exit monad over a [World] that records every
    observable action in a trace. *)

From Stdlib Require Import String Ascii ZArith List Bool DecimalString.
From stdpp Require Import base tactics option list gmap strings.

Local Open Scope string_scope.

(** ** Python string operations used by the module *)

Module PyStr.

(** Text that reaches the program from outside (a line typed at the
    prompt) is a sequence of Unicode code points; [codes] gives the code
    points of a literal of the program. *)
Fixpoint codes (s : string) : list N :=
  match s with
  | EmptyString => []
  | String c r => N_of_ascii c :: codes r
  end.

(** [str.isspace] for one code point, the white space that [str.strip()]
    removes: U+0009..U+000D, U+001C..U+0020, U+0085, U+00A0, U+1680,
    U+2000..U+200A, U+2028, U+2029, U+202F, U+205F and U+3000. *)
Definition is_space (n : N) : bool :=
  (((9 <=? n) && (n <=? 13)) || ((28 <=? n) && (n <=? 32))
   || (n =? 133) || (n =? 160) || (n =? 5760)
   || ((8192 <=? n) && (n <=? 8202))
   || (n =? 8232) || (n =? 8233) || (n =? 8239) || (n =? 8287)
   || (n =? 12288))%N.

Arguments is_space n : simpl never.

(** [s.lstrip()] *)
Fixpoint lstrip (s : list N) : list N :=
  match s with
  | [] => []
  | c :: r => if is_space c then lstrip r else s
  end.

(** [s.rstrip()] *)
Fixpoint rstrip (s : list N) : list N :=
  match s with
  | [] => []
  | c :: r =>
      match rstrip r with
      | [] => if is_space c then [] else [c]
      | r' => c :: r'
      end
  end.

(** [s.strip()] *)
Definition strip (s : list N) : list N := lstrip (rstrip s).

(** every code point of [s] is white space *)
Fixpoint all_space (s : list N) : bool :=
  match s with
  | [] => true
  | c :: r => is_space c && all_space r
  end.

(** [s.partition(sep)] for a one-character separator: the text before the
    first [sep], the separator itself, and the text after it; a string
    without [sep] gives [(s, '', '')]. *)
Fixpoint partition (sep : ascii) (s : string) : string * string * string :=
  match s with
  | EmptyString => (EmptyString, EmptyString, EmptyString)
  | String c r =>
      if Ascii.eqb c sep then (EmptyString, String sep EmptyString, r)
      else let '(h, m, t) := partition sep r in (String c h, m, t)
  end.

(** [sep.join(l)] *)
Fixpoint join (sep : string) (l : list string) : string :=
  match l with
  | [] => EmptyString
  | [x] => x
  | x :: r => x +:+ sep +:+ join sep r
  end.

(** [x in tup] for a tuple of literals *)
Definition in_tuple (x : list N) (tup : list string) : bool :=
  existsb (λ t, bool_decide (x = codes t)) tup.

(** [str(n)] for a non-negative integer *)
Definition str_of_N (n : N) : string := NilZero.string_of_uint (N.to_uint n).

(** [str(z)] for an integer *)
Definition str_of_Z (z : Z) : string := NilZero.string_of_int (Z.to_int z).

End PyStr.

(** ** Data model *)

(** Configuration values and command-line values: Python booleans,
    integers and text. *)
Inductive Value :=
| VBool (b : bool)
| VInt (z : Z)
| VStr (s : string).

(** Python truth value of a [Value], as [if config[...]:] takes it. *)
Definition truthy (v : Value) : bool :=
  match v with
  | VBool b => b
  | VInt z => negb (z =? 0)%Z
  | VStr s => negb (String.eqb s EmptyString)
  end.

(** ['%s' % v] *)
Definition str (v : Value) : string :=
  match v with
  | VBool true => "True"
  | VBool false => "False"
  | VInt z => PyStr.str_of_Z z
  | VStr s => s
  end.

(** What a configuration holds under one key, and the property objects
    that [cfg.to_list] hands out. *)
Record Setting := mkSetting { value : Value; hidden : bool }.
Record Property := mkProperty { key : string; setting : Setting }.

(** A rejected (key, value) pair, as the error handler receives it. *)
Record ConfigError := mkConfigError { err_key : string; err_value : Value }.

Inductive level := LvlInfo | LvlError.

(** Calls on the [sqlitecache.SQLiteCache] made by the updater thread. *)
Inductive cache_call :=
| SQLiteCache_new
| partial_update (targets : list string)
| full_update.

Inductive signum := SIGTERM | SIGINT.

(** The handler object built by [httphandler.HTTPHandler(config)]; it
    captures the global configuration of that moment. *)
Inductive HTTPHandler := mkHTTPHandler (captured : option (gmap string Setting)).

(** Observable actions, in program order. *)
Inductive event :=
| EvStdout (text : string)
| EvStderr (text : string)
| EvPrompt (text : string)
| EvLog (lvl : level) (fmt : string) (args : list string)
| EvLogError (err : ConfigError)
| EvProvide (name : string) (impl : string)
| EvSignal (sig : signum)
| EvCall (fn : string) (args : list Value)
| EvThreadStart (name : string) (work : list cache_call)
| EvCherrypyConfig (settings : list (string * Value))
| EvRedirecter (port : Value) (host : string) (thread_pool : Z)
| EvMount (handler : HTTPHandler) (rootpath : Value) (apps : list (string * list (string * Value)))
| EvCachingExpires (secs : Z)
| EvEngineStart
| EvEngineBlock.

(** The state of the process and of its surroundings: regular files by
    path, directories, the lines still to be read from standard input
    (each a sequence of code points), the module-level global [config],
    and the trace of actions so far. *)
Record World := mkWorld {
  files : gmap string string;
  dirs : gset string;
  stdin : list (list N);
  config : option (gmap string Setting);
  trace : list event
}.

(** How a call ends: it returns, [sys.exit] ends the process with a status,
    or an exception escapes. *)
Inductive outcome (A : Type) :=
| Return (a : A)
| Exit (status : Z)
| Raise (exn : string).

Arguments Return {A} a.
Arguments Exit {A} status.
Arguments Raise {A} exn.

Definition M (A : Type) : Type := World → outcome A * World.

#[global] Instance M_ret : MRet M := λ A a w, (Return a, w).

#[global] Instance M_bind : MBind M := λ A B f m w,
  match m w with
  | (Return a, w') => f a w'
  | (Exit status, w') => (Exit status, w')
  | (Raise exn, w') => (Raise exn, w')
  end.

Definition emit (e : event) : M unit := λ w,
  (Return tt, mkWorld (files w) (dirs w) (stdin w) (config w) (trace w ++ [e])).

Definition set_files (f : gmap string string → gmap string string) : M unit := λ w,
  (Return tt, mkWorld (f (files w)) (dirs w) (stdin w) (config w) (trace w)).

Definition set_config (c : gmap string Setting) : M unit := λ w,
  (Return tt, mkWorld (files w) (dirs w) (stdin w) (Some c) (trace w)).

Definition get_world : M World := λ w, (Return w, w).

(** [sys.exit(status)] *)
Definition sys_exit {A} (status : Z) : M A := λ w, (Exit status, w).

(** [sys.exit(text)]: the text goes to standard error and the status is 1. *)
Definition sys_exit_msg {A} (text : string) : M A :=
  emit (EvStderr text);; sys_exit 1.

(** [print(text)] *)
Definition print (text : string) : M unit := emit (EvStdout text).

(** [input(prompt)]: shows the prompt and takes the next line of standard
    input; at end of input Python raises [EOFError]. *)
Definition input (prompt : string) : M (list N) := λ w,
  match stdin w with
  | line :: rest =>
      (Return line,
       mkWorld (files w) (dirs w) rest (config w) (trace w ++ [EvPrompt prompt]))
  | [] =>
      (Raise "EOFError",
       mkWorld (files w) (dirs w) [] (config w) (trace w ++ [EvPrompt prompt]))
  end.

(** [open(path, 'w').write(text)] *)
Definition write_file (path text : string) : M unit :=
  set_files (λ fs, <[path := text]> fs).

(** [os.remove(path)] *)
Definition os_remove (path : string) : M unit :=
  set_files (λ fs, delete path fs).

(** [os.path.exists(path)] *)
Definition os_path_exists (path : string) (w : World) : bool :=
  bool_decide (is_Some (files w !! path)) || bool_decide (path ∈ dirs w).

(** [os.mkdir(path)] *)
Definition os_mkdir (path : string) : M unit := λ w,
  (Return tt, mkWorld (files w) ({[path]} ∪ dirs w) (stdin w) (config w) (trace w)).

(** Modelled from the spec: the logging collaborator [log] (its module is
    not among the sources); [log.i] and [log.e] only report. *)
Definition log_i (fmt : string) (args : list string) : M unit :=
  emit (EvLog LvlInfo fmt args).

Definition log_e (err : ConfigError) : M unit := emit (EvLogError err).

(** ** Collaborators

    What [__init__.py] imports from the package without the sources being
    at hand ([pathprovider], [configuration], [database], [browsersetup])
    and from the platform ([os], [textwrap], the Unicode case tables
    behind [str.lower]) is taken as a parameter:
    every result below holds for whatever these do. *)
Record Collaborators := mkCollaborators {
  (* pathprovider *)
  pidFile : string;
  configurationFile : string;
  databaseFilePath : string → string;
  fallbackPath : string;
  getUserDataPath : string;
  getResourcePath : string → string;
  fallbackPathInUse : World → bool;
  (* os *)
  getpid : N;
  linesep : string;
  path_join : string → string → string;
  abspath : string → string;
  (* textwrap.wrap(text, initial_indent=.., subsequent_indent=..) *)
  textwrap_wrap : string → string → string → list string;
  (* str.lower(), by the case tables of the interpreter's Unicode data *)
  unicode_lower : list N → list N;
  (* configuration *)
  from_defaults : gmap string Setting;
  from_configparser : option string → gmap string Setting;
  render : gmap string Setting → string;
  (* the validity/coercion rule of the configuration [self]: what a value
     offered for a key is stored as, [None] when it is rejected *)
  validate : gmap string Setting → string → Value → option Value;
  (* database, sqlitecache *)
  DBNAME : string;
  resetdb : string → M unit;
  ensure_current_version : (list string → M bool) → M bool;
  (* browsersetup *)
  configureAndStartCherryPy : Value → M unit
}.

Definition VERSION : string := "0.28.0".

Definition tab : string := String (ascii_of_nat 9) EmptyString.
Definition newline : string := String (ascii_of_nat 10) EmptyString.
Definition rule74 : string :=
  "==========================================================================".
Definition rule44 : string := "============================================".

(** ** Configuration layer *)

Module cfg.

(** Modelled from the spec: [key in configuration] of the absent module
    [configuration]; a snapshot is a mapping with unique keys. *)
Definition contains (c : gmap string Setting) (k : string) : bool :=
  bool_decide (is_Some (c !! k)).

(** Modelled from the spec: [cfg.to_list] of the absent module
    [configuration]; one property object (key, value, hidden flag) per key
    of the snapshot. *)
Definition to_list (c : gmap string Setting) : list Property :=
  (λ kv, mkProperty kv.1 kv.2) <$> map_to_list c.

(** The values of a configuration, as the mapping [replace] reads. *)
Definition values (c : gmap string Setting) : gmap string Value := value <$> c.

(** The property a key gets once the validity/coercion rule has turned
    the offered value into [stored]: a known key keeps its hidden flag, an
    unknown key passes through as a visible property. *)
Definition overlay (self : gmap string Setting) (k : string) (stored : Value) : Setting :=
  match self !! k with
  | Some s => mkSetting stored (hidden s)
  | None => mkSetting stored false
  end.

(** Modelled from the spec: [Configuration.replace(other, on_error)] of the
    absent module [configuration]. The overlay is applied key by key
    through the validity/coercion rule of the configuration: an accepted
    value is stored as the rule converts it; a pair the rule rejects goes
    to [on_error] and leaves the underlying value in place, and the merge
    goes on with the next key.
    The keys of [other] are visited in the order of [map_to_list]; the
    order only shows in the order of the error reports. *)
Fixpoint replace_items (validated : string → Value → option Value)
    (self : gmap string Setting) (items : list (string * Value))
    (on_error : ConfigError → M unit) (acc : gmap string Setting)
    : M (gmap string Setting) :=
  match items with
  | [] => mret acc
  | (k, v) :: rest =>
      match validated k v with
      | Some stored =>
          replace_items validated self rest on_error (<[k := overlay self k stored]> acc)
      | None =>
          on_error (mkConfigError k v);;
          replace_items validated self rest on_error acc
      end
  end.

Definition replace (C : Collaborators) (self : gmap string Setting)
    (other : gmap string Value) (on_error : ConfigError → M unit)
    : M (gmap string Setting) :=
  replace_items (validate C self) self (map_to_list other) on_error self.

(** Modelled from the spec: [cfg.write_to_file] of the absent module
    [configuration]; the whole snapshot is written to the path. *)
Definition write_to_file (C : Collaborators) (c : gmap string Setting)
    (path : string) : M unit :=
  write_file path (render C c).

End cfg.

(** ** pathprovider predicates *)

Module pathprovider.

(** Modelled from the spec: [pathprovider.pidFileExists] (module absent);
    existence of the marker file alone decides. *)
Definition pidFileExists (C : Collaborators) (w : World) : bool :=
  bool_decide (is_Some (files w !! pidFile C)).

(** Modelled from the spec: [pathprovider.configurationFileExists] (module
    absent). *)
Definition configurationFileExists (C : Collaborators) (w : World) : bool :=
  bool_decide (is_Some (files w !! configurationFile C)).

End pathprovider.

(** ** The class [CherryMusic] *)

Section CherryMusic.

Context (C : Collaborators).

(** [delete_pid_file]: "Delete the process id file, if it exists". *)
Definition delete_pid_file : M unit :=
  w ← get_world;
  if pathprovider.pidFileExists C w
  then os_remove (pidFile C)
  else print "Error removing pid file, doesn't exist!".

(** [stopAndCleanUp]: "Delete the process id file and exit". *)
Definition stopAndCleanUp : M unit :=
  delete_pid_file;;
  print "Exiting...";;
  sys_exit 0.

Definition pid_file_exists_text : string :=
  rule44 +:+ "
Process id file " +:+ pidFile C +:+ " already exists.
I've you are sure that cherrymusic is not running, you can delete this file and restart cherrymusic.
" +:+ rule44.

(** [create_pid_file]: "create a process id file, exit if it already
    exists". *)
Definition create_pid_file : M unit :=
  w ← get_world;
  if pathprovider.pidFileExists C w
  then sys_exit_msg pid_file_exists_text
  else write_file (pidFile C) (PyStr.str_of_N (getpid C)).

(** [setup_services]: the six [service.provide] registrations. *)
Definition setup_services : M unit :=
  emit (EvProvide "filecache" "sqlitecache.SQLiteCache");;
  emit (EvProvide "cherrymodel" "cherrymodel.CherryModel");;
  emit (EvProvide "playlist" "playlistdb.PlaylistDB");;
  emit (EvProvide "users" "userdb.UserDB");;
  emit (EvProvide "useroptions" "useroptiondb.UserOptionDB");;
  emit (EvProvide "dbconnector" "database.sql.SQLiteConnector").

(** The lambda [transform]: the key is split at its first dot by
    [partition] and shown as section in brackets, colon, rest. *)
Definition transform (s : string) : string :=
  let '(section, _, name) := PyStr.partition "."%char s in
  "[" +:+ section +:+ "]: " +:+ name.

(** The first loop of [_check_for_config_updates]. *)
Definition collect_new (default known_config : gmap string Setting) : list string :=
  fold_left
    (λ new property,
       if negb (cfg.contains known_config (key property))
          && negb (hidden (setting property))
       then (new ++ [transform (key property)])%list
       else new)
    (cfg.to_list default) [].

(** The second loop of [_check_for_config_updates]. *)
Definition collect_deprecated (default known_config : gmap string Setting) : list string :=
  fold_left
    (λ deprecated property,
       if negb (cfg.contains default (key property))
       then (deprecated ++ [transform (key property)])%list
       else deprecated)
    (cfg.to_list known_config) [].

Definition new_options_fmt : string :=
  "New configuration options available:
                        %s
                    Using default values for now.".

Definition deprecated_options_fmt : string :=
  "The following configuration options are not used anymore:
                        %s".

Definition newconfig_hint : string :=
  "Start with --newconfig to generate a new default config" +:+
  " file next to your current one.".

Definition report_separator : string := newline +:+ tab +:+ tab +:+ tab.

(** A Python list is true when it is not empty. *)
Definition nonempty {A} (l : list A) : bool :=
  match l with [] => false | _ :: _ => true end.

(** [_check_for_config_updates]: "check if there are new or deprecated
    configuration keys in the config file". *)
Definition _check_for_config_updates (default known_config : gmap string Setting) : M unit :=
  let new := collect_new default known_config in
  let deprecated := collect_deprecated default known_config in
  (if nonempty new
   then log_i new_options_fmt [PyStr.join report_separator new]
   else mret tt);;
  (if nonempty deprecated
   then log_i deprecated_options_fmt [PyStr.join report_separator deprecated]
   else mret tt);;
  (if nonempty new || nonempty deprecated
   then log_i newconfig_hint []
   else mret tt).

(** [_init_config]: "update the internal configuration using the following
    hierarchy: command_line_config > file_config > default_config". *)
Definition _init_config (override_dict : gmap string Value) : M unit :=
  let defaults := from_defaults C in
  w ← get_world;
  let filecfg := from_configparser C (files w !! configurationFile C) in
  custom ← cfg.replace C defaults (cfg.values filecfg) log_e;
  effective ← cfg.replace C custom override_dict log_e;
  set_config effective;;
  _check_for_config_updates defaults filecfg.

Definition migration_notice : string :=
  "
" +:+ rule74 +:+ "
Oops!

CherryMusic changed some file locations while you weren't looking.
(To better comply with best practices, if you wanna know.)

To continue, please move the following:

    $ mv " +:+ path_join C (fallbackPath C) "config" +:+ " " +:+ configurationFile C +:+ "

    $ mv " +:+ path_join C (fallbackPath C) "*" +:+ " " +:+ getUserDataPath C +:+ "

Thank you, and enjoy responsibly. :)
" +:+ rule74 +:+ "
".

Definition printMigrationNoticeAndExit : M unit :=
  print migration_notice;;
  sys_exit 1.

Definition welcome_text : string :=
  "
" +:+ rule74 +:+ "
Welcome to CherryMusic " +:+ VERSION +:+ "!

To get this party started, you need to edit the configuration file, which
resides under the following path:

    " +:+ configurationFile C +:+ "

Then you can start the server and listen to whatever you like.
Have fun!
" +:+ rule74 +:+ "
".

Definition printWelcomeAndExit : M unit :=
  print welcome_text;;
  sys_exit 0.

(** [cfg_override.pop('server.port', False)] *)
Definition pop_port (cfg_override : gmap string Value) : Value * gmap string Value :=
  (default (VBool false) (cfg_override !! "server.port"),
   delete "server.port" cfg_override).

(** [setup_config]: "start the in-browser configuration server, create a
    config if no configuration is found or provide migration help for old
    CM versions; initialize the configuration if no config setup is
    needed/requested". *)
Definition setup_config (createNewConfig browsersetup : bool)
    (cfg_override : gmap string Value) : M unit :=
  cfg_override ←
    (if browsersetup
     then let '(port, remaining) := pop_port cfg_override in
          emit (EvCall "browsersetup.configureAndStartCherryPy" [port]);;
          configureAndStartCherryPy C port;;
          mret remaining
     else mret cfg_override);
  (if createNewConfig
   then let newconfigpath := configurationFile C +:+ ".new" in
        cfg.write_to_file C (from_defaults C) newconfigpath;;
        log_i ("New configuration file was written to:" +:+ linesep C +:+ newconfigpath) [];;
        sys_exit 0
   else mret tt);;
  w ← get_world;
  (if negb (pathprovider.configurationFileExists C w)
   then if fallbackPathInUse C w
        then printMigrationNoticeAndExit
        else cfg.write_to_file C (from_defaults C) (configurationFile C);;
             printWelcomeAndExit
   else mret tt);;
  _init_config cfg_override.

(** The lambda [wrap] of the consent prompt. *)
Definition wrap (r : string) : string :=
  PyStr.join (linesep C) (textwrap_wrap C r " - " "   ").

Definition consent_prompt (reasons : list string) : string :=
  "
" +:+ rule74 +:+ "
A database schema update is needed and requires your consent.

" +:+ PyStr.join (linesep C +:+ linesep C) (wrap <$> reasons) +:+ "

To continue without changes, you need to downgrade to an earlier
version of CherryMusic.

To backup your database files first, abort for now and find them here:

" +:+ tab +:+ databaseFilePath C EmptyString +:+ "

" +:+ rule74 +:+ "
Run schema update? [y/N]: ".

(** [_get_user_consent_for_db_schema_update]: "Ask the user if the
    database schema update should happen now". *)
Definition _get_user_consent_for_db_schema_update (reasons : list string) : M bool :=
  answer ← input (consent_prompt reasons);
  mret (PyStr.in_tuple (PyStr.strip (unicode_lower C answer)) ["y"]).

(** [_update_if_necessary], the body of the updater thread: "perform a
    database update if update (a list of paths to update is not None. If
    update is an empty list, perform a full update instead of a partial
    update". *)
Definition _update_if_necessary (update : option (list string)) : list cache_call :=
  match update with
  | Some (target :: targets) => [SQLiteCache_new; partial_update (target :: targets)]
  | Some [] => [SQLiteCache_new; full_update]
  | None => [SQLiteCache_new]
  end.

(** [update or ()] *)
Definition or_empty (update : option (list string)) : option (list string) :=
  match update with
  | Some (target :: targets) => update
  | _ => Some []
  end.

(** [setup_databases]: "delete or update the file db if so requested.
    check if the db schema is up to date". *)
Definition setup_databases (update : option (list string))
    (dropfiledb setup : bool) : M unit :=
  update ←
    (if dropfiledb
     then emit (EvCall "database.resetdb" [VStr (DBNAME C)]);;
          resetdb C (DBNAME C);;
          mret (Some [])
     else mret update);
  let update := if setup then or_empty update else update in
  emit (EvCall "database.ensure_current_version" []);;
  db_is_ready ← ensure_current_version C _get_user_consent_for_db_schema_update;
  if negb db_is_ready
  then log_i "database schema update aborted. quitting." [];;
       sys_exit 1
  else
    match update with
    | Some _ =>
        emit (EvThreadStart "Updater" (_update_if_necessary update));;
        if negb setup then stopAndCleanUp else mret tt
    | None => mret tt
    end.

(** [config[k]] on the global configuration. *)
Definition cfg_get (k : string) : M Value := λ w,
  match config w with
  | None => (Raise "TypeError", w)
  | Some c =>
      match c !! k with
      | Some s => (Return (value s), w)
      | None => (Raise "KeyError", w)
      end
  end.

(** [start_server]: "use the configuration to setup and start the cherrypy
    server". *)
Definition start_server (httphandler : HTTPHandler) : M unit :=
  emit (EvCherrypyConfig [("log.screen", VBool true)]);;
  localhost_only ← cfg_get "server.localhost_only";
  socket_host ←
    (if truthy localhost_only
     then mret "localhost"
     else ipv6_enabled ← cfg_get "server.ipv6_enabled";
          mret (if truthy ipv6_enabled then "::" else "0.0.0.0"));
  let resourcedir := abspath C (getResourcePath C "res") in
  ssl_enabled ← cfg_get "server.ssl_enabled";
  (if truthy ssl_enabled
   then ssl_certificate ← cfg_get "server.ssl_certificate";
        ssl_private_key ← cfg_get "server.ssl_private_key";
        ssl_port ← cfg_get "server.ssl_port";
        emit (EvCherrypyConfig
                [("server.ssl_certificate", ssl_certificate);
                 ("server.ssl_private_key", ssl_private_key);
                 ("server.socket_port", ssl_port)]);;
        port ← cfg_get "server.port";
        emit (EvRedirecter port socket_host 10)
   else port ← cfg_get "server.port";
        emit (EvCherrypyConfig [("server.socket_port", port)]));;
  emit (EvCherrypyConfig
          [("log.error_file", VStr (path_join C (getUserDataPath C) "server.log"));
           ("environment", VStr "production");
           ("server.socket_host", VStr socket_host);
           ("server.thread_pool", VInt 30);
           ("tools.sessions.on", VBool true);
           ("tools.sessions.timeout", VInt (60 * 24))]);;
  keep_session_in_ram ← cfg_get "server.keep_session_in_ram";
  (if negb (truthy keep_session_in_ram)
   then let sessiondir := path_join C (getUserDataPath C) "sessions" in
        w ← get_world;
        (if negb (os_path_exists sessiondir w) then os_mkdir sessiondir else mret tt);;
        emit (EvCherrypyConfig
                [("tools.sessions.storage_type", VStr "file");
                 ("tools.sessions.storage_path", VStr sessiondir)])
   else mret tt);;
  rootpath ← cfg_get "server.rootpath";
  basedir ← cfg_get "media.basedir";
  emit (EvMount httphandler rootpath
          [("/res",
            [("tools.staticdir.on", VBool true);
             ("tools.staticdir.dir", VStr resourcedir);
             ("tools.staticdir.index", VStr "index.html");
             ("tools.caching.on", VBool false)]);
           ("/serve",
            [("tools.staticdir.on", VBool true);
             ("tools.staticdir.dir", basedir);
             ("tools.staticdir.index", VStr "index.html");
             ("tools.encode.on", VBool true);
             ("tools.encode.encoding", VStr "utf-8");
             ("tools.caching.on", VBool false)]);
           ("/favicon.ico",
            [("tools.staticfile.on", VBool true);
             ("tools.staticfile.filename", VStr (resourcedir +:+ "/favicon.ico"))])]);;
  port ← cfg_get "server.port";
  log_i ("Starting server on port " +:+ str port +:+ " ...") [];;
  emit (EvCachingExpires 0);;
  emit EvEngineStart;;
  emit EvEngineBlock.

(** [CherryMusic.__init__]: "Sets up services (configuration, database,
    etc) and starts the server". *)
Definition __init__ (update : option (list string))
    (createNewConfig dropfiledb setup : bool)
    (cfg_override : gmap string Value) : M unit :=
  setup_services;;
  setup_config createNewConfig setup cfg_override;;
  emit (EvSignal SIGTERM);;
  emit (EvSignal SIGINT);;
  create_pid_file;;
  setup_databases update dropfiledb setup;;
  w ← get_world;
  start_server (mkHTTPHandler (config w));;
  delete_pid_file.

End CherryMusic.

(** ** Phases and observations used to state the properties *)

(** The first statement of [setup_config]: the in-browser set-up, which
    takes ['server.port'] out of the overrides. *)
Definition browser_phase (C : Collaborators) (browsersetup : bool)
    (cfg_override : gmap string Value) : M (gmap string Value) :=
  if browsersetup
  then let '(port, remaining) := pop_port cfg_override in
       emit (EvCall "browsersetup.configureAndStartCherryPy" [port]);;
       configureAndStartCherryPy C port;;
       mret remaining
  else mret cfg_override.

(** [setup_databases] up to and including the call of the schema gate. *)
Definition schema_gate (C : Collaborators) (dropfiledb : bool) : M bool :=
  (if dropfiledb
   then emit (EvCall "database.resetdb" [VStr (DBNAME C)]);;
        resetdb C (DBNAME C)
   else mret tt);;
  emit (EvCall "database.ensure_current_version" []);;
  ensure_current_version C (_get_user_consent_for_db_schema_update C).

(** The refresh request [setup_databases] ends up with: [None] for no
    refresh, [Some []] for a full one, [Some targets] for a partial one. *)
Definition refresh_request (update : option (list string))
    (dropfiledb setup : bool) : option (list string) :=
  let update := if dropfiledb then Some [] else update in
  if setup then or_empty update else update.

(** [__init__] up to and including [create_pid_file]. *)
Definition startup_prefix (C : Collaborators) (createNewConfig setup : bool)
    (cfg_override : gmap string Value) : M unit :=
  setup_services;;
  setup_config C createNewConfig setup cfg_override;;
  emit (EvSignal SIGTERM);;
  emit (EvSignal SIGINT);;
  create_pid_file C.

(** What is left of [__init__] once [setup_databases] has returned. *)
Definition serve (C : Collaborators) : M unit :=
  w ← get_world;
  start_server C (mkHTTPHandler (config w));;
  delete_pid_file C.

Definition add_trace (w : World) (evs : list event) : World :=
  mkWorld (files w) (dirs w) (stdin w) (config w) (trace w ++ evs).

Definition with_files (w : World) (fs : gmap string string) : World :=
  mkWorld fs (dirs w) (stdin w) (config w) (trace w).

Definition is_thread_start (e : event) : bool :=
  match e with EvThreadStart _ _ => true | _ => false end.

Definition is_engine_start (e : event) : bool :=
  match e with EvEngineStart => true | _ => false end.

Definition is_info_log (e : event) : bool :=
  match e with EvLog LvlInfo _ _ => true | _ => false end.

(** A refresh thread was started / the service layer was started. *)
Definition refresh_launched (w : World) : bool := existsb is_thread_start (trace w).
Definition service_started (w : World) : bool := existsb is_engine_start (trace w).

(** What a layer offers for a key: its value there as the
    validity/coercion rule stores it, when the rule accepts it. *)
Definition offered (validated : string → Value → option Value)
    (other : gmap string Value) (k : string) : option Value :=
  match other !! k with
  | Some v => validated k v
  | None => None
  end.

(** One accepted pair laid over the accumulated configuration; a rejected
    pair changes nothing. *)
Definition put (validated : string → Value → option Value)
    (self acc : gmap string Setting) (kv : string * Value) : gmap string Setting :=
  match validated kv.1 kv.2 with
  | Some stored => <[kv.1 := cfg.overlay self kv.1 stored]> acc
  | None => acc
  end.

(** The configuration [replace] returns, without the error reports. *)
Definition overlaid (C : Collaborators) (self : gmap string Setting)
    (other : gmap string Value) : gmap string Setting :=
  fold_left (put (validate C self) self) (map_to_list other) self.

(** The error reports of one [replace]: one per rejected pair, in the
    order of the items. *)
Definition rejections (validated : string → Value → option Value)
    (items : list (string * Value)) : list event :=
  flat_map
    (λ kv, match validated kv.1 kv.2 with
           | Some _ => []
           | None => [EvLogError (mkConfigError kv.1 kv.2)]
           end)
    items.

(** What [setup_services] leaves in the trace. *)
Definition services_provided : list event :=
  [EvProvide "filecache" "sqlitecache.SQLiteCache";
   EvProvide "cherrymodel" "cherrymodel.CherryModel";
   EvProvide "playlist" "playlistdb.PlaylistDB";
   EvProvide "users" "userdb.UserDB";
   EvProvide "useroptions" "useroptiondb.UserOptionDB";
   EvProvide "dbconnector" "database.sql.SQLiteConnector"].

(** The line logged when the schema gate says no. *)
Definition abort_log : event :=
  EvLog LvlInfo "database schema update aborted. quitting." [].

(** The reports [_check_for_config_updates] logs for given lists. *)
Definition diagnostics (new deprecated : list string) : list event :=
  ((if nonempty new
    then [EvLog LvlInfo new_options_fmt [PyStr.join report_separator new]]
    else []) ++
   (if nonempty deprecated
    then [EvLog LvlInfo deprecated_options_fmt [PyStr.join report_separator deprecated]]
    else []) ++
   (if nonempty new || nonempty deprecated
    then [EvLog LvlInfo newconfig_hint []]
    else []))%list.

(** ** A concrete deployment

    One choice of collaborators, small enough to run, on which the model
    is evaluated. *)

Module Sample.

Fixpoint lines (s : string) : list string :=
  match s with
  | EmptyString => [EmptyString]
  | String c r =>
      if Ascii.eqb c (ascii_of_nat 10) then EmptyString :: lines r
      else match lines r with
           | l :: ls => String c l :: ls
           | [] => [String c EmptyString]
           end
  end.

Definition parse_value (text : string) : Value :=
  if String.eqb text "True" then VBool true
  else if String.eqb text "False" then VBool false
  else match NilZero.uint_of_string text with
       | Some n => VInt (Z.of_N (N.of_uint n))
       | None => VStr text
       end.

Definition parse_line (l : string) : option (string * Setting) :=
  let '(k, sep, v) := PyStr.partition "="%char l in
  if String.eqb sep EmptyString then None
  else Some (k, mkSetting (parse_value v) false).

(** A flat [key=value] file, one pair per line. *)
Definition parse (content : option string) : gmap string Setting :=
  match content with
  | None => ∅
  | Some text => list_to_map (omap parse_line (lines text))
  end.

Definition unparse (c : gmap string Setting) : string :=
  PyStr.join newline
    ((λ kv : string * Setting, kv.1 +:+ "=" +:+ str (value kv.2)) <$> map_to_list c).

Definition defaults : gmap string Setting :=
  list_to_map
    [("media.basedir", mkSetting (VStr "/music") false);
     ("server.port", mkSetting (VInt 8080) false);
     ("server.localhost_only", mkSetting (VBool false) false);
     ("server.ipv6_enabled", mkSetting (VBool false) false);
     ("server.ssl_enabled", mkSetting (VBool false) false);
     ("server.ssl_port", mkSetting (VInt 8443) false);
     ("server.ssl_certificate", mkSetting (VStr "certs/server.crt") false);
     ("server.ssl_private_key", mkSetting (VStr "certs/server.key") false);
     ("server.keep_session_in_ram", mkSetting (VBool false) false);
     ("server.rootpath", mkSetting (VStr "/") false);
     ("server.permit_remote_admin_login", mkSetting (VBool true) true)].

(** The port is stored as an integer: an integer is taken as it is, a
    text of digits is converted, anything else is rejected. Every other
    key takes any value unchanged. *)
Definition rule (self : gmap string Setting) (k : string) (v : Value) : option Value :=
  if String.eqb k "server.port"
  then match v with
       | VInt z => Some (VInt z)
       | VStr text =>
           match NilZero.uint_of_string text with
           | Some n => Some (VInt (Z.of_N (N.of_uint n)))
           | None => None
           end
       | VBool _ => None
       end
  else Some v.

(** [str.lower] on the code points below U+0100: the capitals of Basic
    Latin and Latin-1 move up by 32, everything else stays. *)
Definition lower_latin1 (s : list N) : list N :=
  (λ n, if ((65 <=? n) && (n <=? 90) ||
            (192 <=? n) && (n <=? 222) && negb (n =? 215))%N
        then (n + 32)%N else n) <$> s.

Definition version_file : string := "/data/db/version".
Definition expected_version : string := "2".

(** Modelled from the spec: [database.ensure_current_version] (module
    absent). A current schema gives true with no side effect; a stale one
    asks the consent callback once, migrates and gives true on consent,
    and gives false without any change on refusal. *)
Definition gate (consentcallback : list string → M bool) : M bool :=
  w ← get_world;
  if bool_decide (files w !! version_file = Some expected_version)
  then mret true
  else consent ← consentcallback ["The schema version of the databases is out of date."];
       if consent : bool
       then write_file version_file expected_version;; (mret true : M bool)
       else (mret false : M bool).

Definition collab : Collaborators := {|
  pidFile := "/data/cherrymusic.pid";
  configurationFile := "/config/cherrymusic.conf";
  databaseFilePath := λ name, "/data/db/" +:+ name;
  fallbackPath := "/home/.cherrymusic";
  getUserDataPath := "/data";
  getResourcePath := λ name, "/usr/share/cherrymusic/" +:+ name;
  fallbackPathInUse := λ w, bool_decide (is_Some (files w !! "/home/.cherrymusic/config"));
  getpid := 4711%N;
  linesep := newline;
  path_join := λ a b, a +:+ "/" +:+ b;
  abspath := λ p, p;
  textwrap_wrap := λ text initial_indent _, [initial_indent +:+ text];
  unicode_lower := lower_latin1;
  from_defaults := defaults;
  from_configparser := parse;
  render := unparse;
  validate := rule;
  DBNAME := "cherry.cache";
  resetdb := λ name, os_remove ("/data/db/" +:+ name);
  ensure_current_version := gate;
  configureAndStartCherryPy := λ _, mret tt
|}.

Definition world_of (fs : list (string * string)) (answers : list (list N)) : World :=
  mkWorld (list_to_map fs) ∅ answers None [].

(** Nothing on disk yet. *)
Definition fresh : World := world_of [] [].

(** Only the configuration of an old version, under the fall-back path. *)
Definition legacy : World := world_of [("/home/.cherrymusic/config", "server.port=7000")] [].

(** A configured installation with a current schema. *)
Definition configured : World :=
  world_of [("/config/cherrymusic.conf", "server.port=9090");
            ("/data/db/version", "2");
            ("/data/db/cherry.cache", "index")] [].

(** The same with the marker of a running instance. *)
Definition running : World :=
  world_of [("/config/cherrymusic.conf", "server.port=9090");
            ("/data/db/version", "2");
            ("/data/cherrymusic.pid", "4242")] [].

(** A configured installation with an outdated schema and an operator who
    types the code points [answer] at the prompt. *)
Definition stale_typed (answer : list N) : World :=
  world_of [("/config/cherrymusic.conf", "server.port=9090");
            ("/data/db/version", "1");
            ("/data/db/cherry.cache", "index")] [answer].

(** The same for an answer given as a literal. *)
Definition stale (answer : string) : World := stale_typed (PyStr.codes answer).

(** The configured installation once [_init_config] has run without
    overrides, and with TLS, local-only service and in-memory sessions
    asked for on the command line. *)
Definition resolved : World := (_init_config collab ∅ configured).2.

Definition resolved_tls : World :=
  (_init_config collab
     (list_to_map [("server.ssl_enabled", VBool true);
                   ("server.localhost_only", VBool true);
                   ("server.keep_session_in_ram", VBool true)])
     configured).2.

(** The configuration a world holds in the global [config]. *)
Definition config_of (w : World) : gmap string Setting := default ∅ (config w).

End Sample.

(** ** Module-level code *)

Definition cherrypyReqVersion : string := "3".

Definition version_too_old_text (cherrypyCurrVersion : string) : string :=
  "
cherrypy version is too old!
Current version: " +:+ cherrypyCurrVersion +:+ "
Required version: " +:+ cherrypyReqVersion +:+ " or higher
".

(** The version check that runs when the module is imported;
    [cherrypyCurrVersion] is [str(cherrypy.__version__)], and [<] on two
    strings compares them character by character. *)
Definition check_cherrypy_version (cherrypyCurrVersion : string) : M unit :=
  if String.ltb cherrypyCurrVersion cherrypyReqVersion
  then print (version_too_old_text cherrypyCurrVersion);;
       sys_exit 1
  else mret tt.

(** ** Observations on traces and keys *)

(** [c] occurs in [s]. *)
Fixpoint has_char (c : ascii) (s : string) : bool :=
  match s with
  | EmptyString => false
  | String x r => Ascii.eqb x c || has_char c r
  end.

(** The value a dict literal gives a key. *)
Fixpoint assoc (k : string) (settings : list (string * Value)) : option Value :=
  match settings with
  | [] => None
  | (k', v) :: rest => if String.eqb k' k then Some v else assoc k rest
  end.

(** What [cherrypy.config] holds for a key after the [update] calls among
    the events: a later update wins over an earlier one. *)
Fixpoint cherrypy_setting (k : string) (evs : list event) : option Value :=
  match evs with
  | [] => None
  | e :: rest =>
      match cherrypy_setting k rest with
      | Some v => Some v
      | None =>
          match e with
          | EvCherrypyConfig settings => assoc k settings
          | _ => None
          end
      end
  end.

(** The redirecting servers subscribed among the events. *)
Definition redirecters (evs : list event) : list (Value * string * Z) :=
  omap (λ e, match e with
             | EvRedirecter port host pool => Some (port, host, pool)
             | _ => None
             end) evs.

(** The texts logged at info level among the events. *)
Definition info_logs (evs : list event) : list string :=
  omap (λ e, match e with
             | EvLog LvlInfo fmt [] => Some fmt
             | _ => None
             end) evs.

(** The truth value the configuration gives a key; a missing key counts
    as false. *)
Definition lookup_truthy (c : gmap string Setting) (k : string) : bool :=
  match c !! k with
  | Some s => truthy (value s)
  | None => false
  end.

(** The socket host [start_server] works out. *)
Definition socket_host_of (c : gmap string Setting) : string :=
  if lookup_truthy c "server.localhost_only" then "localhost"
  else if lookup_truthy c "server.ipv6_enabled" then "::"
  else "0.0.0.0".

(** The configured value of a key, when there is one. *)
Definition lookup_value (c : gmap string Setting) (k : string) : option Value :=
  value <$> c !! k.

(** The directory [start_server] keeps sessions in. *)
Definition sessiondir (C : Collaborators) : string :=
  path_join C (getUserDataPath C) "sessions".

(** The call did not return: the process exited or an exception escaped. *)
Definition failed {A} (o : outcome A) : bool :=
  match o with
  | Return _ => false
  | _ => true
  end.

(** * Properties *)

(** The methods are unfolded by name only. *)
#[global] Arguments delete_pid_file : simpl never.
#[global] Arguments stopAndCleanUp : simpl never.
#[global] Arguments create_pid_file : simpl never.
#[global] Arguments setup_services : simpl never.
#[global] Arguments _check_for_config_updates : simpl never.
#[global] Arguments _init_config : simpl never.
#[global] Arguments setup_config : simpl never.
#[global] Arguments _get_user_consent_for_db_schema_update : simpl never.
#[global] Arguments setup_databases : simpl never.
#[global] Arguments start_server : simpl never.
#[global] Arguments schema_gate : simpl never.
#[global] Arguments browser_phase : simpl never.
#[global] Arguments startup_prefix : simpl never.
#[global] Arguments serve : simpl never.
#[global] Arguments cfg.replace : simpl never.
#[global] Arguments pathprovider.pidFileExists : simpl never.
#[global] Arguments pathprovider.configurationFileExists : simpl never.

Ltac run := unfold mbind, M_bind, mret, M_ret; cbn.

(** Case analysis on the outcome of the first call that is still opaque. *)
Ltac step :=
  match goal with
  | |- context [let (_, _) := ?m ?w in _] =>
      lazymatch m with
      | context [match _ with _ => _ end] => fail
      | _ => destruct (m w) as [[?| |] ?] eqn:?; cbn
      end
  end.


(** ** Text: [strip] *)

Lemma append_nil (t : string) : EmptyString +:+ t = t.
Proof. reflexivity. Qed.

Lemma append_cons (c : ascii) (a t : string) :
  String c a +:+ t = String c (a +:+ t).
Proof. reflexivity. Qed.

Lemma append_assoc (a b c : string) : (a +:+ b) +:+ c = a +:+ (b +:+ c).
Proof. induction a as [|x a IH]; rewrite ?append_nil, ?append_cons; congruence. Qed.

Lemma rstrip_empty_iff (s : list N) :
  PyStr.rstrip s = [] ↔ PyStr.all_space s = true.
Proof.
  induction s as [|c s IH]; cbn; [done|].
  destruct (PyStr.rstrip s) eqn:Hr.
  - destruct (PyStr.is_space c); cbn; [tauto|].
    split; discriminate.
  - split; [discriminate|].
    intros [_ Hs]%andb_true_iff. apply IH in Hs. discriminate.
Qed.

Lemma lstrip_app_space (a t : list N) :
  PyStr.all_space a = true → PyStr.lstrip (a ++ t) = PyStr.lstrip t.
Proof.
  induction a as [|c a IH]; cbn; [done|].
  intros [Hc Ha]%andb_true_iff. rewrite Hc. auto.
Qed.

Lemma rstrip_app_keep (a t : list N) :
  PyStr.rstrip t ≠ [] → PyStr.rstrip (a ++ t) = (a ++ PyStr.rstrip t)%list.
Proof.
  intros Ht. induction a as [|c a IH]; cbn; [done|].
  rewrite IH. destruct (a ++ PyStr.rstrip t)%list eqn:Happ; [|done].
  by apply app_eq_nil in Happ as [_ ?].
Qed.

Lemma rstrip_split (s : list N) :
  ∃ b, s = (PyStr.rstrip s ++ b)%list ∧ PyStr.all_space b = true.
Proof.
  induction s as [|c s (b & Hs & Hb)]; cbn.
  - by exists [].
  - destruct (PyStr.rstrip s) eqn:Hr.
    + destruct (PyStr.is_space c) eqn:Hc.
      * exists (c :: s). split; [done|].
        cbn. rewrite Hc. by apply rstrip_empty_iff.
      * exists b. cbn in *. split; [by rewrite <- Hs | done].
    + exists b. cbn in *. split; [by rewrite <- Hs | done].
Qed.

Lemma lstrip_split (t : list N) :
  ∃ a, t = (a ++ PyStr.lstrip t)%list ∧ PyStr.all_space a = true.
Proof.
  induction t as [|c t (a & Ht & Ha)]; cbn.
  - by exists [].
  - destruct (PyStr.is_space c) eqn:Hc.
    + exists (c :: a). cbn. rewrite Hc, Ha.
      split; [by rewrite <- Ht | done].
    + by exists [].
Qed.

(** What [strip] leaves is a single code point that is not white space
    exactly when the text is that code point between white space. *)
Lemma strip_single (s : list N) (c : N) :
  PyStr.is_space c = false →
  PyStr.strip s = [c] ↔
  ∃ a b, s = (a ++ c :: b)%list ∧ PyStr.all_space a = true ∧ PyStr.all_space b = true.
Proof.
  intros Hc. unfold PyStr.strip. split.
  - intros Hs.
    destruct (rstrip_split s) as (b & Hsb & Hb).
    destruct (lstrip_split (PyStr.rstrip s)) as (a & Hra & Ha).
    exists a, b. split; [|done].
    rewrite Hsb at 1. rewrite Hra at 1. rewrite Hs.
    by rewrite <- app_assoc.
  - intros (a & b & -> & Ha & Hb).
    assert (Hcb : PyStr.rstrip (c :: b) = [c]).
    { cbn. apply rstrip_empty_iff in Hb. by rewrite Hb, Hc. }
    rewrite rstrip_app_keep by (by rewrite Hcb).
    rewrite Hcb, lstrip_app_space by done. cbn. by rewrite Hc.
Qed.

Section Startup.

Context (C : Collaborators).

(** *** The instance marker *)

Lemma delete_pid_file_run (w : World) :
  delete_pid_file C w =
    (Return tt,
     if pathprovider.pidFileExists C w
     then with_files w (delete (pidFile C) (files w))
     else add_trace w [EvStdout "Error removing pid file, doesn't exist!"]).
Proof.
  unfold delete_pid_file. run.
  by destruct (pathprovider.pidFileExists C w).
Qed.

Lemma pidFileExists_after_delete (w : World) :
  pathprovider.pidFileExists C (delete_pid_file C w).2 = false.
Proof.
  rewrite delete_pid_file_run. cbn.
  destruct (pathprovider.pidFileExists C w) eqn:Hex.
  - unfold pathprovider.pidFileExists, with_files. cbn.
    rewrite lookup_delete_eq. apply bool_decide_eq_false. by intros [? ?].
  - exact Hex.
Qed.

Lemma stopAndCleanUp_run (w : World) :
  stopAndCleanUp C w = (Exit 0, add_trace (delete_pid_file C w).2 [EvStdout "Exiting..."]).
Proof.
  unfold stopAndCleanUp. run. rewrite delete_pid_file_run. reflexivity.
Qed.

Lemma create_pid_file_run (w : World) :
  create_pid_file C w =
    if pathprovider.pidFileExists C w
    then (Exit 1, add_trace w [EvStderr (pid_file_exists_text C)])
    else (Return tt, with_files w (<[pidFile C := PyStr.str_of_N (getpid C)]> (files w))).
Proof.
  unfold create_pid_file. run.
  by destruct (pathprovider.pidFileExists C w).
Qed.

Lemma init_split (update : option (list string)) (createNewConfig dropfiledb setup : bool)
    (cfg_override : gmap string Value) (w : World) :
  __init__ C update createNewConfig dropfiledb setup cfg_override w =
    (startup_prefix C createNewConfig setup cfg_override;;
     setup_databases C update dropfiledb setup;;
     serve C) w.
Proof.
  unfold __init__, startup_prefix, serve. run.
  repeat (step; try done).
Qed.


Lemma bind_return {A B} (m : M A) (f : A → M B) (w w' : World) (a : A) :
  m w = (Return a, w') → (m ≫= f) w = f a w'.
Proof. intros H. unfold mbind, M_bind. by rewrite H. Qed.

Lemma bind_exit {A B} (m : M A) (f : A → M B) (w w' : World) (status : Z) :
  m w = (Exit status, w') → (m ≫= f) w = (Exit status, w').
Proof. intros H. unfold mbind, M_bind. by rewrite H. Qed.

Lemma init_after_prefix (update : option (list string))
    (createNewConfig dropfiledb setup : bool) (cfg_override : gmap string Value)
    (w w2 : World) :
  startup_prefix C createNewConfig setup cfg_override w = (Return tt, w2) →
  __init__ C update createNewConfig dropfiledb setup cfg_override w =
    (setup_databases C update dropfiledb setup;; serve C) w2.
Proof.
  intros H. rewrite init_split.
  exact (bind_return _ (λ _, setup_databases C update dropfiledb setup;; serve C) _ _ _ H).
Qed.

Lemma setup_services_run (w : World) :
  setup_services w = (Return tt, add_trace w services_provided).
Proof.
  unfold setup_services, add_trace, services_provided, emit. run.
  by rewrite <- !app_assoc.
Qed.

Lemma init_exits_in_setup_config (update : option (list string))
    (createNewConfig dropfiledb setup : bool) (cfg_override : gmap string Value)
    (w w' : World) (status : Z) :
  setup_config C createNewConfig setup cfg_override (add_trace w services_provided) =
    (Exit status, w') →
  __init__ C update createNewConfig dropfiledb setup cfg_override w = (Exit status, w').
Proof.
  intros H. unfold __init__.
  rewrite (bind_return _ _ _ _ _ (setup_services_run w)).
  exact (bind_exit _ _ _ _ _ H).
Qed.

(** *** The schema gate and the refresh *)

Lemma setup_databases_refused (update : option (list string))
    (dropfiledb setup : bool) (w wg : World) :
  schema_gate C dropfiledb w = (Return false, wg) →
  setup_databases C update dropfiledb setup w = (Exit 1, add_trace wg [abort_log]).
Proof.
  unfold schema_gate, setup_databases. run.
  destruct dropfiledb; cbn.
  - step; try discriminate. step; try discriminate.
    intros [= -> ->]. reflexivity.
  - step; try discriminate. intros [= -> ->]. reflexivity.
Qed.

Lemma setup_databases_passed (update : option (list string))
    (dropfiledb setup : bool) (w wg : World) :
  schema_gate C dropfiledb w = (Return true, wg) →
  setup_databases C update dropfiledb setup w =
    match refresh_request update dropfiledb setup with
    | None => (Return tt, wg)
    | Some targets =>
        let launched :=
          add_trace wg [EvThreadStart "Updater" (_update_if_necessary (Some targets))] in
        if setup then (Return tt, launched) else stopAndCleanUp C launched
    end.
Proof.
  unfold schema_gate, setup_databases, refresh_request. run.
  destruct dropfiledb; cbn.
  - step; try discriminate. step; try discriminate.
    intros [= -> ->]. cbn. by destruct setup.
  - step; try discriminate. intros [= -> ->]. cbn.
    destruct setup, update as [[|]|]; reflexivity.
Qed.

Lemma refresh_request_setup (update : option (list string)) (dropfiledb : bool) :
  is_Some (refresh_request update dropfiledb true).
Proof. unfold refresh_request. destruct dropfiledb, update as [[|]|]; cbn; eauto. Qed.

End Startup.

(** *** Configuration layers *)

Lemma add_trace_nil (w : World) : add_trace w [] = w.
Proof. destruct w. unfold add_trace. cbn. by rewrite app_nil_r. Qed.

Lemma add_trace_nil' (w : World) :
  w = mkWorld (files w) (dirs w) (stdin w) (config w) (trace w ++ []).
Proof. destruct w. cbn. by rewrite app_nil_r. Qed.

Section Layers.

Context (validated : string → Value → option Value) (self : gmap string Setting).

Lemma replace_items_run (items : list (string * Value))
    (acc : gmap string Setting) (w : World) :
  cfg.replace_items validated self items log_e acc w =
    (Return (fold_left (put validated self) items acc),
     add_trace w (rejections validated items)).
Proof.
  revert acc w. induction items as [|[k v] items IH]; intros acc w; cbn.
  - by rewrite add_trace_nil.
  - unfold put at 2. cbn. destruct (validated k v) as [stored|] eqn:Hrule; cbn.
    + apply IH.
    + run. rewrite IH. unfold add_trace. cbn. by rewrite <- app_assoc.
Qed.

Lemma fold_put_lookup (items : list (string * Value))
    (acc : gmap string Setting) (k : string) :
  NoDup items.*1 →
  fold_left (put validated self) items acc !! k =
    match offered validated (list_to_map items) k with
    | Some stored => Some (cfg.overlay self k stored)
    | None => acc !! k
    end.
Proof.
  revert acc. induction items as [|[k' v'] items IH]; intros acc Hnd; cbn.
  - unfold offered. by rewrite lookup_empty.
  - apply NoDup_cons in Hnd as [Hk' Hnd]. rewrite IH by done.
    unfold offered, put. cbn.
    destruct (decide (k' = k)) as [->|Hne].
    + rewrite lookup_insert_eq.
      rewrite (not_elem_of_list_to_map_1 _ _ Hk').
      destruct (validated k v'); [by rewrite lookup_insert_eq | done].
    + rewrite lookup_insert_ne by done.
      assert (Hput : match validated k' v' with
                     | Some stored => <[k' := cfg.overlay self k' stored]> acc
                     | None => acc
                     end !! k = acc !! k).
      { destruct (validated k' v'); [by rewrite lookup_insert_ne | done]. }
      by rewrite Hput.
Qed.

Lemma rejections_elem_of (items : list (string * Value)) (k : string) (v : Value) :
  (k, v) ∈ items → validated k v = None →
  EvLogError (mkConfigError k v) ∈ rejections validated items.
Proof.
  intros Hin Hrej. unfold rejections. apply list_elem_of_In, in_flat_map.
  exists (k, v). split; [by apply list_elem_of_In|].
  cbn. rewrite Hrej. by left.
Qed.

End Layers.

Section Diagnostics.
Context (C : Collaborators).

Lemma replace_run (self : gmap string Setting) (other : gmap string Value) (w : World) :
  cfg.replace C self other log_e w =
    (Return (overlaid C self other),
     add_trace w (rejections (validate C self) (map_to_list other))).
Proof. unfold cfg.replace, overlaid. apply replace_items_run. Qed.

Lemma overlaid_lookup (self : gmap string Setting) (other : gmap string Value) (k : string) :
  overlaid C self other !! k =
    match offered (validate C self) other k with
    | Some stored => Some (cfg.overlay self k stored)
    | None => self !! k
    end.
Proof.
  unfold overlaid. rewrite fold_put_lookup by apply NoDup_fst_map_to_list.
  by rewrite list_to_map_to_list.
Qed.

Lemma overlay_value (self : gmap string Setting) (k : string) (v : Value) :
  value (cfg.overlay self k v) = v.
Proof. unfold cfg.overlay. by destruct (self !! k). Qed.


(** *** Diagnostics *)

Lemma collect_elem_of {A} (cond : A → bool) (g : A → string) (l : list A)
    (acc : list string) (s : string) :
  s ∈ fold_left (λ acc x, if cond x then (acc ++ [g x])%list else acc) l acc ↔
  s ∈ acc ∨ ∃ x, x ∈ l ∧ cond x = true ∧ s = g x.
Proof.
  revert acc. induction l as [|x l IH]; intros acc; cbn.
  - split; [by left|]. intros [H | (x & Hx & _)]; [done|]. by apply elem_of_nil in Hx.
  - rewrite IH. split.
    + intros [H | (y & Hy & Hc & ->)].
      * destruct (cond x) eqn:Hc; [|by left].
        apply elem_of_app in H as [H | H]; [by left|].
        apply list_elem_of_singleton in H as ->.
        right. exists x. split; [left|done].
      * right. exists y. split; [by right|done].
    + intros [H | (y & Hy & Hc & ->)].
      * left. destruct (cond x); [|done]. apply elem_of_app. by left.
      * apply elem_of_cons in Hy as [-> | Hy].
        -- left. rewrite Hc. apply elem_of_app. right. by left.
        -- right. by exists y.
Qed.

Lemma to_list_elem_of (c : gmap string Setting) (p : Property) :
  p ∈ cfg.to_list c ↔ c !! key p = Some (setting p).
Proof.
  unfold cfg.to_list. rewrite list_elem_of_fmap. split.
  - intros ([k s] & -> & Hin). cbn. by apply elem_of_map_to_list.
  - intros Hp. exists (key p, setting p). split; [by destruct p|].
    by apply elem_of_map_to_list.
Qed.

Lemma contains_false (c : gmap string Setting) (k : string) :
  negb (cfg.contains c k) = true ↔ c !! k = None.
Proof.
  unfold cfg.contains. rewrite negb_true_iff, bool_decide_eq_false.
  by rewrite <- eq_None_not_Some.
Qed.

Lemma collect_new_spec (default known_config : gmap string Setting) (s : string) :
  s ∈ collect_new default known_config ↔
  ∃ k p, default !! k = Some p ∧ known_config !! k = None ∧ hidden p = false
         ∧ s = transform k.
Proof.
  unfold collect_new.
  rewrite (collect_elem_of
             (λ property, negb (cfg.contains known_config (key property))
                          && negb (hidden (setting property)))
             (λ property, transform (key property))).
  split.
  - intros [H | (p & Hp & Hc & ->)]; [by apply elem_of_nil in H|].
    apply to_list_elem_of in Hp. apply andb_true_iff in Hc as [Hk Hh].
    apply contains_false in Hk. apply negb_true_iff in Hh.
    by exists (key p), (setting p).
  - intros (k & p & Hd & Hk & Hh & ->). right.
    exists (mkProperty k p). cbn. split; [by apply to_list_elem_of|].
    split; [|done]. apply andb_true_iff. split.
    + by apply contains_false.
    + by apply negb_true_iff.
Qed.

Lemma collect_deprecated_spec (default known_config : gmap string Setting) (s : string) :
  s ∈ collect_deprecated default known_config ↔
  ∃ k p, known_config !! k = Some p ∧ default !! k = None ∧ s = transform k.
Proof.
  unfold collect_deprecated.
  rewrite (collect_elem_of
             (λ property, negb (cfg.contains default (key property)))
             (λ property, transform (key property))).
  split.
  - intros [H | (p & Hp & Hc & ->)]; [by apply elem_of_nil in H|].
    apply to_list_elem_of in Hp. apply contains_false in Hc.
    by exists (key p), (setting p).
  - intros (k & p & Hd & Hk & ->). right.
    exists (mkProperty k p). cbn. split; [by apply to_list_elem_of|].
    split; [|done]. by apply contains_false.
Qed.

Lemma check_for_config_updates_run (default known_config : gmap string Setting) (w : World) :
  _check_for_config_updates default known_config w =
    (Return tt,
     add_trace w (diagnostics (collect_new default known_config)
                              (collect_deprecated default known_config))).
Proof.
  unfold _check_for_config_updates, diagnostics, log_i, emit, add_trace. run.
  destruct (nonempty (collect_new _ _)), (nonempty (collect_deprecated _ _)); cbn;
    rewrite <- ?app_assoc; try done.
  by rewrite <- add_trace_nil'.
Qed.

End Diagnostics.

Section InitConfig.
Context (C : Collaborators).

Lemma init_config_run (override_dict : gmap string Value) (w : World) :
  let defaults := from_defaults C in
  let filecfg := from_configparser C (files w !! configurationFile C) in
  let custom := overlaid C defaults (cfg.values filecfg) in
  let effective := overlaid C custom override_dict in
  _init_config C override_dict w =
    (Return tt,
     mkWorld (files w) (dirs w) (stdin w) (Some effective)
       (trace w ++
        rejections (validate C defaults) (map_to_list (cfg.values filecfg)) ++
        rejections (validate C custom) (map_to_list override_dict) ++
        diagnostics (collect_new defaults filecfg) (collect_deprecated defaults filecfg))).
Proof.
  intros defaults filecfg custom effective.
  unfold _init_config. run. rewrite replace_run. cbn.
  rewrite replace_run. cbn. rewrite check_for_config_updates_run.
  unfold add_trace. cbn. by rewrite <- !app_assoc.
Qed.

(** When the rule of the configuration layer takes every value as it is,
    the three layers are merged by presence alone: override, else file,
    else default. *)
Lemma effective_config_by_presence (override_dict : gmap string Value) (w : World) (k : string) :
  (∀ self k v, validate C self k v = Some v) →
  let defaults := from_defaults C in
  let filecfg := from_configparser C (files w !! configurationFile C) in
  (config (_init_config C override_dict w).2 ≫= λ effective, value <$> effective !! k) =
    match override_dict !! k with
    | Some v => Some v
    | None =>
        match filecfg !! k with
        | Some s => Some (value s)
        | None => value <$> defaults !! k
        end
    end.
Proof.
  intros Hall defaults filecfg. rewrite init_config_run. cbn.
  rewrite !overlaid_lookup. unfold offered, cfg.values.
  destruct (override_dict !! k) as [v|]; [by rewrite Hall; cbn; rewrite overlay_value|].
  rewrite lookup_fmap. fold defaults filecfg.
  destruct (filecfg !! k) as [s|]; cbn; [|done].
  rewrite Hall. cbn. by rewrite overlay_value.
Qed.

(** In set-up mode the ['server.port'] override is handed to the browser
    set-up and taken out of the dict that reaches [_init_config]. *)
Lemma browser_phase_takes_port (cfg_override remaining : gmap string Value) (w w1 : World) :
  browser_phase C true cfg_override w = (Return remaining, w1) →
  remaining = delete "server.port" cfg_override.
Proof.
  unfold browser_phase. run. step; try discriminate. by intros [= <- _].
Qed.

End InitConfig.


(** ** Main results *)

Section StartupResults.
Context (C : Collaborators).

(** C10. The consent callback shows the prompt, reads one line and grants
    consent exactly when that line, lowercased and stripped of surrounding
    white space, is the one-character text [y]. *)
Theorem consent_only_on_y (reasons : list string) (w : World)
    (line : list N) (rest : list (list N)) :
  stdin w = line :: rest →
  ∃ granted : bool,
    _get_user_consent_for_db_schema_update C reasons w =
      (Return granted,
       mkWorld (files w) (dirs w) rest (config w)
         (trace w ++ [EvPrompt (consent_prompt C reasons)])) ∧
    (granted = true ↔ PyStr.strip (unicode_lower C line) = PyStr.codes "y").
Proof.
  intros Hin.
  exists (PyStr.in_tuple (PyStr.strip (unicode_lower C line)) ["y"]).
  split.
  - unfold _get_user_consent_for_db_schema_update, input. run. by rewrite Hin.
  - unfold PyStr.in_tuple. cbn [existsb]. rewrite orb_false_r.
    apply bool_decide_eq_true.
Qed.

(** C4. A false result of the schema gate is fatal: the abort is logged
    and the process exits with status 1; nothing else happens after the
    gate has returned, so no refresh is launched, the server is not
    started and files and directories stay as the gate left them. *)
Theorem schema_gate_false_is_fatal (update : option (list string))
    (createNewConfig dropfiledb setup : bool) (cfg_override : gmap string Value)
    (w w2 wg : World) :
  startup_prefix C createNewConfig setup cfg_override w = (Return tt, w2) →
  schema_gate C dropfiledb w2 = (Return false, wg) →
  setup_databases C update dropfiledb setup w2 =
    (Exit 1, mkWorld (files wg) (dirs wg) (stdin wg) (config wg)
               (trace wg ++ [EvLog LvlInfo "database schema update aborted. quitting." []]))
  ∧ __init__ C update createNewConfig dropfiledb setup cfg_override w =
    (Exit 1, mkWorld (files wg) (dirs wg) (stdin wg) (config wg)
               (trace wg ++ [EvLog LvlInfo "database schema update aborted. quitting." []])).
Proof.
  intros Hprefix Hgate.
  pose proof (setup_databases_refused C update dropfiledb setup _ _ Hgate) as Hdb.
  split; [exact Hdb|].
  rewrite (init_after_prefix C _ _ _ _ _ _ _ Hprefix).
  exact (bind_exit _ _ _ _ _ Hdb).
Qed.

(** C1 (as the code has it). With a refresh requested and the schema gate
    passed, the updater thread is started and then: outside set-up mode
    the process cleans up and exits with status 0 without starting the
    server; in set-up mode, where a refresh is always requested, the
    server is started next, without waiting for the thread. *)
Theorem refresh_exits_unless_setup (update : option (list string))
    (createNewConfig dropfiledb setup : bool) (cfg_override : gmap string Value)
    (w w2 wg : World) (targets : list string) :
  startup_prefix C createNewConfig setup cfg_override w = (Return tt, w2) →
  schema_gate C dropfiledb w2 = (Return true, wg) →
  refresh_request update dropfiledb setup = Some targets →
  let launched :=
    add_trace wg [EvThreadStart "Updater" (_update_if_necessary (Some targets))] in
  __init__ C update createNewConfig dropfiledb setup cfg_override w =
    if setup
    then serve C launched
    else (Exit 0, add_trace (delete_pid_file C launched).2 [EvStdout "Exiting..."]).
Proof.
  intros Hprefix Hgate Hreq launched.
  rewrite (init_after_prefix C _ _ _ _ _ _ _ Hprefix).
  pose proof (setup_databases_passed C update dropfiledb setup _ _ Hgate) as Hdb.
  rewrite Hreq in Hdb. cbn zeta in Hdb. fold launched in Hdb.
  destruct setup.
  - exact (bind_return _ (λ _, serve C) _ _ _ Hdb).
  - rewrite stopAndCleanUp_run in Hdb. exact (bind_exit _ _ _ _ _ Hdb).
Qed.

(** C2 (as the code has it). With the drop-and-rebuild intent the index is
    reset and then the schema gate is called like in any other start; a
    false result is fatal, and after a true result the updater thread is
    started for a full update whatever targets were supplied. *)
Theorem drop_rebuild_gated_then_full (update : option (list string))
    (setup : bool) (w wr wg : World) (db_is_ready : bool) :
  resetdb C (DBNAME C) (add_trace w [EvCall "database.resetdb" [VStr (DBNAME C)]]) =
    (Return tt, wr) →
  ensure_current_version C (_get_user_consent_for_db_schema_update C)
      (add_trace wr [EvCall "database.ensure_current_version" []]) =
    (Return db_is_ready, wg) →
  setup_databases C update true setup w =
    if db_is_ready
    then let launched :=
           add_trace wg [EvThreadStart "Updater" [SQLiteCache_new; full_update]] in
         if setup then (Return tt, launched) else stopAndCleanUp C launched
    else (Exit 1, add_trace wg [EvLog LvlInfo "database schema update aborted. quitting." []]).
Proof.
  intros Hreset Hgate.
  assert (Hsg : schema_gate C true w = (Return db_is_ready, wg)).
  { unfold schema_gate. run. fold (add_trace w [EvCall "database.resetdb" [VStr (DBNAME C)]]).
    rewrite Hreset. cbn. exact Hgate. }
  destruct db_is_ready.
  - rewrite (setup_databases_passed C update true setup _ _ Hsg).
    unfold refresh_request. by destruct setup.
  - exact (setup_databases_refused C update true setup _ _ Hsg).
Qed.

(** C8. [create_pid_file] with the marker present prints the explanation
    to standard error and exits with status 1, leaving files, directories
    and everything else as they were; without a marker it writes the
    process id, in decimal, to the marker path. In [__init__] the marker
    conflict ends the start-up right there: after the two signal handlers
    only the explanation is added to the trace. *)
Theorem create_pid_file_guard (update : option (list string))
    (createNewConfig dropfiledb setup : bool) (cfg_override : gmap string Value)
    (w w1 : World) :
  (setup_services;; setup_config C createNewConfig setup cfg_override) w = (Return tt, w1) →
  create_pid_file C w1 =
    (if pathprovider.pidFileExists C w1
     then (Exit 1, add_trace w1 [EvStderr (pid_file_exists_text C)])
     else (Return tt,
           with_files w1 (<[pidFile C := PyStr.str_of_N (getpid C)]> (files w1))))
  ∧ (pathprovider.pidFileExists C w1 = true →
     __init__ C update createNewConfig dropfiledb setup cfg_override w =
       (Exit 1, add_trace w1 [EvSignal SIGTERM; EvSignal SIGINT;
                              EvStderr (pid_file_exists_text C)])).
Proof.
  intros Hcfg. split; [apply create_pid_file_run|].
  intros Hex. rewrite init_split.
  apply bind_exit. unfold startup_prefix.
  revert Hcfg. run. step; try discriminate. step; try discriminate.
  intros [= -> ->]. rewrite create_pid_file_run.
  unfold pathprovider.pidFileExists in *. cbn. rewrite Hex.
  unfold add_trace. cbn. by rewrite <- !app_assoc.
Qed.

(** C9. [delete_pid_file] always returns: with the marker present it
    removes it, without one it only prints a message and changes nothing
    on disk; a second call right after the first is therefore always of
    the second kind. *)
Theorem delete_pid_file_total_idempotent (w : World) :
  delete_pid_file C w =
    (Return tt,
     if pathprovider.pidFileExists C w
     then with_files w (delete (pidFile C) (files w))
     else add_trace w [EvStdout "Error removing pid file, doesn't exist!"])
  ∧ (let once := (delete_pid_file C w).2 in
     delete_pid_file C once =
       (Return tt, add_trace once [EvStdout "Error removing pid file, doesn't exist!"])).
Proof.
  split; [apply delete_pid_file_run|].
  cbn zeta. rewrite (delete_pid_file_run C (delete_pid_file C w).2).
  by rewrite pidFileExists_after_delete.
Qed.

End StartupResults.

Section ConfigResults.
Context (C : Collaborators).

(** C5 (as the configuration layer allows it). [_init_config] always
    returns and leaves the effective configuration in the global
    [config]; for every key its value is what the validity/coercion rule
    stores for the override's value when the key is there and accepted,
    otherwise what the rule stores for the configuration file's value
    when the key is there and accepted, otherwise the default's. *)
Theorem effective_config_layering (override_dict : gmap string Value) (w : World) :
  let defaults := from_defaults C in
  let filecfg := from_configparser C (files w !! configurationFile C) in
  let custom := overlaid C defaults (cfg.values filecfg) in
  ∃ (effective : gmap string Setting) (w' : World),
    _init_config C override_dict w = (Return tt, w') ∧
    config w' = Some effective ∧
    ∀ k : string,
      value <$> effective !! k =
        match offered (validate C custom) override_dict k with
        | Some stored => Some stored
        | None =>
            match offered (validate C defaults) (cfg.values filecfg) k with
            | Some stored => Some stored
            | None => value <$> defaults !! k
            end
        end.
Proof.
  intros defaults filecfg custom.
  eexists _, _. split; [apply init_config_run|]. split; [reflexivity|].
  intros k. rewrite overlaid_lookup.
  destruct (offered (validate C _) override_dict k) as [v|]; cbn.
  { by rewrite overlay_value. }
  fold defaults filecfg custom. unfold custom. rewrite overlaid_lookup.
  destruct (offered (validate C defaults) (cfg.values filecfg) k) as [v|]; cbn.
  { by rewrite overlay_value. }
  done.
Qed.

(** C6. A rejected pair never aborts the merge: [_init_config] always
    returns; in either layer a rejected pair is reported through [log.e]
    and the underlying value stays for that key, an accepted pair is laid
    over it as the rule stores it, and a key the layer does not hold is
    left alone. *)
Theorem merge_is_key_isolated (override_dict : gmap string Value) (w : World) :
  let defaults := from_defaults C in
  let filecfg := from_configparser C (files w !! configurationFile C) in
  let custom := overlaid C defaults (cfg.values filecfg) in
  ∃ (effective : gmap string Setting) (w' : World),
    _init_config C override_dict w = (Return tt, w') ∧
    config w' = Some effective ∧
    (∀ k : string,
       match cfg.values filecfg !! k with
       | Some v =>
           match validate C defaults k v with
           | Some stored => custom !! k = Some (cfg.overlay defaults k stored)
           | None => custom !! k = defaults !! k ∧
                     EvLogError (mkConfigError k v) ∈ trace w'
           end
       | None => custom !! k = defaults !! k
       end) ∧
    (∀ k : string,
       match override_dict !! k with
       | Some v =>
           match validate C custom k v with
           | Some stored => effective !! k = Some (cfg.overlay custom k stored)
           | None => effective !! k = custom !! k ∧
                     EvLogError (mkConfigError k v) ∈ trace w'
           end
       | None => effective !! k = custom !! k
       end).
Proof.
  intros defaults filecfg custom.
  eexists _, _. split; [apply init_config_run|]. split; [reflexivity|].
  fold defaults filecfg custom. cbn [trace]. split; intros k.
  - unfold custom. rewrite overlaid_lookup. unfold offered.
    destruct (cfg.values filecfg !! k) as [v|] eqn:Hk; [|done].
    destruct (validate C defaults k v) eqn:Hacc; [done|]. split; [done|].
    apply elem_of_app. right. apply elem_of_app. left.
    apply rejections_elem_of; [|done]. by apply elem_of_map_to_list.
  - rewrite overlaid_lookup. unfold offered.
    destruct (override_dict !! k) as [v|] eqn:Hk; [|done].
    destruct (validate C custom k v) eqn:Hacc; [done|]. split; [done|].
    apply elem_of_app. right. apply elem_of_app. right. apply elem_of_app. left.
    apply rejections_elem_of; [|done]. by apply elem_of_map_to_list.
Qed.

(** C7. The options reported as new are exactly the keys of the defaults
    that the configuration file lacks and that are not hidden; those
    reported as deprecated are exactly the keys of the file that the
    defaults lack (each shown by [transform]). The check only logs at
    info level and always returns. *)
Theorem config_updates_report (default known_config : gmap string Setting) (w : World) :
  (∀ s : string,
     s ∈ collect_new default known_config ↔
     ∃ k p, default !! k = Some p ∧ known_config !! k = None ∧ hidden p = false
            ∧ s = transform k) ∧
  (∀ s : string,
     s ∈ collect_deprecated default known_config ↔
     ∃ k p, known_config !! k = Some p ∧ default !! k = None ∧ s = transform k) ∧
  _check_for_config_updates default known_config w =
    (Return tt,
     add_trace w (diagnostics (collect_new default known_config)
                              (collect_deprecated default known_config))) ∧
  forallb is_info_log
    (diagnostics (collect_new default known_config)
                 (collect_deprecated default known_config)) = true.
Proof.
  split; [intros s; apply collect_new_spec|].
  split; [intros s; apply collect_deprecated_spec|].
  split; [apply check_for_config_updates_run|].
  unfold diagnostics.
  by destruct (nonempty (collect_new _ _)), (nonempty (collect_deprecated _ _)).
Qed.

(** C3 (as the code has it). When no new configuration file is asked for,
    no configuration file exists and the fall-back path of older versions
    is not in use, [setup_config] writes the defaults to the configuration
    file path, prints the welcome text and exits with status 0, and so
    does [__init__]. *)
Theorem first_run_writes_defaults (update : option (list string))
    (dropfiledb browsersetup : bool)
    (cfg_override remaining : gmap string Value) (w w1 : World) :
  browser_phase C browsersetup cfg_override (add_trace w services_provided) =
    (Return remaining, w1) →
  pathprovider.configurationFileExists C w1 = false →
  fallbackPathInUse C w1 = false →
  let first_run :=
    add_trace
      (with_files w1 (<[configurationFile C := render C (from_defaults C)]> (files w1)))
      [EvStdout (welcome_text C)] in
  setup_config C false browsersetup cfg_override (add_trace w services_provided) =
    (Exit 0, first_run) ∧
  __init__ C update false dropfiledb browsersetup cfg_override w = (Exit 0, first_run).
Proof.
  intros Hbrowser Hex Hfb first_run.
  assert (Hcfg : setup_config C false browsersetup cfg_override
                   (add_trace w services_provided) = (Exit 0, first_run)).
  { revert Hbrowser. unfold browser_phase, setup_config. run.
    destruct browsersetup; cbn.
    - step; try discriminate. intros [= <- <-]. cbn. by rewrite Hex, Hfb.
    - intros [= <- <-]. cbn. by rewrite Hex, Hfb. }
  split; [exact Hcfg|].
  by apply init_exits_in_setup_config.
Qed.

End ConfigResults.

(** ** The model on the concrete deployment *)

Lemma consent_only_on_y_witness :
  stdin (Sample.stale " Y ") = [PyStr.codes " Y "] ∧
  ∃ granted : bool,
    _get_user_consent_for_db_schema_update Sample.collab ["schema"] (Sample.stale " Y ") =
      (Return granted,
       mkWorld (files (Sample.stale " Y ")) (dirs (Sample.stale " Y ")) []
         (config (Sample.stale " Y "))
         (trace (Sample.stale " Y ") ++ [EvPrompt (consent_prompt Sample.collab ["schema"])])) ∧
    (granted = true ↔
     PyStr.strip (unicode_lower Sample.collab (PyStr.codes " Y ")) = PyStr.codes "y").
Proof.
  split; [reflexivity|].
  apply (consent_only_on_y Sample.collab ["schema"] (Sample.stale " Y ")
           (PyStr.codes " Y ") []).
  reflexivity.
Defined.

Example consent_yes_is_refusal :
  (_get_user_consent_for_db_schema_update Sample.collab [] (Sample.stale "yes")).1 = Return false.
Proof. vm_compute. reflexivity. Qed.

Example consent_empty_is_refusal :
  (_get_user_consent_for_db_schema_update Sample.collab [] (Sample.stale EmptyString)).1 = Return false.
Proof. vm_compute. reflexivity. Qed.

Example consent_padded_capital :
  (_get_user_consent_for_db_schema_update Sample.collab [] (Sample.stale " Y ")).1 = Return true.
Proof. vm_compute. reflexivity. Qed.

(** A no-break space (U+00A0) before the [y] is stripped like any other
    white space, and so are U+0085, U+3000 and U+2029. *)
Example consent_no_break_space :
  (_get_user_consent_for_db_schema_update Sample.collab []
     (Sample.stale_typed [160; 121]%N)).1 = Return true ∧
  (_get_user_consent_for_db_schema_update Sample.collab []
     (Sample.stale_typed [133; 12288; 89; 8233]%N)).1 = Return true.
Proof. vm_compute. split; reflexivity. Qed.

(** A rule that converts: a port given as text of digits is stored as the
    integer, so the effective value is not the override's own value. *)
Example converted_override :
  let override_dict : gmap string Value := {["server.port" := VStr "7070"]} in
  let r := _init_config Sample.collab override_dict Sample.configured in
  (config r.2 ≫= λ effective, value <$> effective !! "server.port") = Some (VInt 7070).
Proof. vm_compute. reflexivity. Qed.

Lemma schema_gate_false_is_fatal_witness :
  let w := Sample.stale "n" in
  let w2 := (startup_prefix Sample.collab false false ∅ w).2 in
  let wg := (schema_gate Sample.collab false w2).2 in
  startup_prefix Sample.collab false false ∅ w = (Return tt, w2) ∧
  schema_gate Sample.collab false w2 = (Return false, wg) ∧
  setup_databases Sample.collab None false false w2 =
    (Exit 1, mkWorld (files wg) (dirs wg) (stdin wg) (config wg)
               (trace wg ++ [EvLog LvlInfo "database schema update aborted. quitting." []])) ∧
  __init__ Sample.collab None false false false ∅ w =
    (Exit 1, mkWorld (files wg) (dirs wg) (stdin wg) (config wg)
               (trace wg ++ [EvLog LvlInfo "database schema update aborted. quitting." []])).
Proof.
  intros w w2 wg.
  assert (H1 : startup_prefix Sample.collab false false ∅ w = (Return tt, w2))
    by (vm_compute; reflexivity).
  assert (H2 : schema_gate Sample.collab false w2 = (Return false, wg))
    by (vm_compute; reflexivity).
  split; [exact H1|]. split; [exact H2|].
  exact (schema_gate_false_is_fatal Sample.collab None false false false ∅ w w2 wg H1 H2).
Defined.

Lemma refresh_exits_unless_setup_witness :
  let w := Sample.configured in
  let w2 := (startup_prefix Sample.collab false false ∅ w).2 in
  let wg := (schema_gate Sample.collab false w2).2 in
  let launched :=
    add_trace wg [EvThreadStart "Updater" (_update_if_necessary (Some ["/music/new"]))] in
  startup_prefix Sample.collab false false ∅ w = (Return tt, w2) ∧
  schema_gate Sample.collab false w2 = (Return true, wg) ∧
  refresh_request (Some ["/music/new"]) false false = Some ["/music/new"] ∧
  __init__ Sample.collab (Some ["/music/new"]) false false false ∅ w =
    (Exit 0, add_trace (delete_pid_file Sample.collab launched).2 [EvStdout "Exiting..."]).
Proof.
  intros w w2 wg launched.
  assert (H1 : startup_prefix Sample.collab false false ∅ w = (Return tt, w2))
    by (vm_compute; reflexivity).
  assert (H2 : schema_gate Sample.collab false w2 = (Return true, wg))
    by (vm_compute; reflexivity).
  assert (H3 : refresh_request (Some ["/music/new"]) false false = Some ["/music/new"])
    by reflexivity.
  split; [exact H1|]. split; [exact H2|]. split; [exact H3|].
  exact (refresh_exits_unless_setup Sample.collab (Some ["/music/new"])
           false false false ∅ w w2 wg ["/music/new"] H1 H2 H3).
Defined.

Lemma setup_mode_serves_update_mode_exits :
  let setup_run := __init__ Sample.collab (Some []) false false true ∅ Sample.configured in
  let update_run := __init__ Sample.collab (Some []) false false false ∅ Sample.configured in
  (setup_run.1 = Return tt ∧
   refresh_launched setup_run.2 = true ∧ service_started setup_run.2 = true) ∧
  (update_run.1 = Exit 0 ∧
   refresh_launched update_run.2 = true ∧ service_started update_run.2 = false).
Proof. vm_compute. repeat split. Qed.

Lemma drop_rebuild_gated_then_full_witness :
  let w := Sample.stale "y" in
  let wr := (resetdb Sample.collab (DBNAME Sample.collab)
               (add_trace w [EvCall "database.resetdb" [VStr (DBNAME Sample.collab)]])).2 in
  let wg := (ensure_current_version Sample.collab
               (_get_user_consent_for_db_schema_update Sample.collab)
               (add_trace wr [EvCall "database.ensure_current_version" []])).2 in
  resetdb Sample.collab (DBNAME Sample.collab)
      (add_trace w [EvCall "database.resetdb" [VStr (DBNAME Sample.collab)]]) =
    (Return tt, wr) ∧
  ensure_current_version Sample.collab
      (_get_user_consent_for_db_schema_update Sample.collab)
      (add_trace wr [EvCall "database.ensure_current_version" []]) =
    (Return true, wg) ∧
  setup_databases Sample.collab (Some ["/music/new"]) true true w =
    (Return tt, add_trace wg [EvThreadStart "Updater" [SQLiteCache_new; full_update]]).
Proof.
  intros w wr wg.
  assert (H1 : resetdb Sample.collab (DBNAME Sample.collab)
                 (add_trace w [EvCall "database.resetdb" [VStr (DBNAME Sample.collab)]]) =
               (Return tt, wr)) by (vm_compute; reflexivity).
  assert (H2 : ensure_current_version Sample.collab
                 (_get_user_consent_for_db_schema_update Sample.collab)
                 (add_trace wr [EvCall "database.ensure_current_version" []]) =
               (Return true, wg)) by (vm_compute; reflexivity).
  split; [exact H1|]. split; [exact H2|].
  exact (drop_rebuild_gated_then_full Sample.collab (Some ["/music/new"]) true w wr wg true H1 H2).
Defined.

Lemma drop_rebuild_still_gated :
  let r := setup_databases Sample.collab (Some ["/music/new"]) true false (Sample.stale "n") in
  r.1 = Exit 1 ∧
  refresh_launched r.2 = false ∧
  trace r.2 =
    [EvCall "database.resetdb" [VStr "cherry.cache"];
     EvCall "database.ensure_current_version" [];
     EvPrompt (consent_prompt Sample.collab
                 ["The schema version of the databases is out of date."]);
     abort_log].
Proof. vm_compute. repeat split. Qed.

Lemma first_run_writes_defaults_witness :
  let w1 := add_trace Sample.fresh services_provided in
  let first_run :=
    add_trace
      (with_files w1
         (<[configurationFile Sample.collab :=
              render Sample.collab (from_defaults Sample.collab)]> (files w1)))
      [EvStdout (welcome_text Sample.collab)] in
  browser_phase Sample.collab false ∅ w1 = (Return ∅, w1) ∧
  pathprovider.configurationFileExists Sample.collab w1 = false ∧
  fallbackPathInUse Sample.collab w1 = false ∧
  setup_config Sample.collab false false ∅ w1 = (Exit 0, first_run) ∧
  __init__ Sample.collab None false false false ∅ Sample.fresh = (Exit 0, first_run).
Proof.
  intros w1 first_run.
  assert (H1 : browser_phase Sample.collab false ∅ w1 = (Return ∅, w1)) by reflexivity.
  assert (H2 : pathprovider.configurationFileExists Sample.collab w1 = false)
    by reflexivity.
  assert (H3 : fallbackPathInUse Sample.collab w1 = false) by reflexivity.
  split; [exact H1|]. split; [exact H2|]. split; [exact H3|].
  exact (first_run_writes_defaults Sample.collab None false false ∅ ∅
           Sample.fresh w1 H1 H2 H3).
Defined.

Lemma missing_config_with_fallback_in_use :
  pathprovider.configurationFileExists Sample.collab Sample.legacy = false ∧
  setup_config Sample.collab false false ∅ Sample.legacy =
    (Exit 1, add_trace Sample.legacy [EvStdout (migration_notice Sample.collab)]) ∧
  __init__ Sample.collab None false false false ∅ Sample.legacy =
    (Exit 1, add_trace Sample.legacy
               (services_provided ++ [EvStdout (migration_notice Sample.collab)])).
Proof. vm_compute. repeat split. Qed.

Lemma rejected_override_keeps_file_value :
  let override_dict : gmap string Value := {["server.port" := VStr "http"]} in
  let r := _init_config Sample.collab override_dict Sample.configured in
  r.1 = Return tt ∧
  override_dict !! "server.port" = Some (VStr "http") ∧
  (config r.2 ≫= λ effective, value <$> effective !! "server.port") = Some (VInt 9090).
Proof. vm_compute. repeat split. Qed.

Lemma create_pid_file_guard_witness :
  let w := Sample.running in
  let w1 := ((setup_services;; setup_config Sample.collab false false ∅) w).2 in
  (setup_services;; setup_config Sample.collab false false ∅) w = (Return tt, w1) ∧
  pathprovider.pidFileExists Sample.collab w1 = true ∧
  create_pid_file Sample.collab w1 =
    (Exit 1, add_trace w1 [EvStderr (pid_file_exists_text Sample.collab)]) ∧
  __init__ Sample.collab None false false false ∅ w =
    (Exit 1, add_trace w1 [EvSignal SIGTERM; EvSignal SIGINT;
                           EvStderr (pid_file_exists_text Sample.collab)]).
Proof.
  intros w w1.
  assert (H1 : (setup_services;; setup_config Sample.collab false false ∅) w = (Return tt, w1))
    by (vm_compute; reflexivity).
  assert (H2 : pathprovider.pidFileExists Sample.collab w1 = true)
    by (vm_compute; reflexivity).
  destruct (create_pid_file_guard Sample.collab None false false false ∅ w w1 H1) as [Hc Hi].
  split; [exact H1|]. split; [exact H2|]. split.
  - rewrite Hc, H2. reflexivity.
  - exact (Hi H2).
Defined.

Example create_pid_file_writes_pid :
  files (create_pid_file Sample.collab Sample.configured).2 !! "/data/cherrymusic.pid"
    = Some "4711".
Proof. vm_compute. reflexivity. Qed.

Example scenario_hidden_default :
  let defaults : gmap string Setting :=
    list_to_map [("a", mkSetting (VInt 1) false); ("b", mkSetting (VInt 2) true)] in
  let persisted : gmap string Setting := {["a" := mkSetting (VInt 5) false]} in
  collect_new defaults persisted = [] ∧ collect_deprecated defaults persisted = [].
Proof. vm_compute. split; reflexivity. Qed.

Example scenario_deprecated_key :
  let defaults : gmap string Setting := {["a" := mkSetting (VInt 1) false]} in
  let persisted : gmap string Setting :=
    list_to_map [("a", mkSetting (VInt 1) false); ("z", mkSetting (VInt 9) false)] in
  collect_new defaults persisted = [] ∧
  collect_deprecated defaults persisted = [transform "z"].
Proof. vm_compute. split; reflexivity. Qed.

Example transform_dotted : transform "server.port" = "[server]: port".
Proof. reflexivity. Qed.

Example transform_plain : transform "z" = "[z]: ".
Proof. reflexivity. Qed.

(** After an abort at the schema gate the marker written by
    [create_pid_file] is still on disk. *)
Example schema_abort_leaves_marker :
  let r := __init__ Sample.collab None false false false ∅ (Sample.stale "n") in
  r.1 = Exit 1 ∧ files r.2 !! pidFile Sample.collab = Some "4711".
Proof. vm_compute. split; reflexivity. Qed.

(** A port given on the command line in set-up mode does not become the
    effective port. *)
Example setup_mode_port_override_unused :
  let r := setup_config Sample.collab false true {["server.port" := VInt 7777]}
             Sample.configured in
  r.1 = Return tt ∧
  (config r.2 ≫= λ effective, value <$> effective !! "server.port") = Some (VInt 9090).
Proof. vm_compute. split; reflexivity. Qed.

(** * Further properties of the start-up code *)

Lemma bind_return_inv {A B} (m : M A) (f : A → M B) (w w' : World) (b : B) :
  (m ≫= f) w = (Return b, w') →
  ∃ a w1, m w = (Return a, w1) ∧ f a w1 = (Return b, w').
Proof.
  unfold mbind, M_bind. destruct (m w) as [[a| |] w1]; try discriminate.
  intros H. by exists a, w1.
Qed.

Section MarkerLifeCycle.
Context (C : Collaborators).

(** X1. The signal handler [stopAndCleanUp] always ends the process with
    status 0, prints [Exiting...] last, and leaves no marker behind,
    whether or not there was one. *)
Theorem stopAndCleanUp_exits_clean (w : World) :
  ∃ w' : World,
    stopAndCleanUp C w = (Exit 0, w') ∧
    pathprovider.pidFileExists C w' = false ∧
    files w' = delete (pidFile C) (files w) ∧
    last (trace w') = Some (EvStdout "Exiting...").
Proof.
  eexists. split; [apply stopAndCleanUp_run|].
  rewrite delete_pid_file_run. cbn.
  destruct (pathprovider.pidFileExists C w) eqn:Hex; cbn.
  - split; [|split; [done|by rewrite last_snoc]].
    unfold pathprovider.pidFileExists. cbn. rewrite lookup_delete_eq.
    apply bool_decide_eq_false. by intros [? ?].
  - split; [exact Hex|]. split; [|by rewrite last_snoc].
    symmetry. apply delete_id.
    unfold pathprovider.pidFileExists in Hex.
    apply bool_decide_eq_false in Hex. by apply eq_None_not_Some.
Qed.

(** X2. Taking the marker and releasing it again restores the files: when
    no marker exists, [create_pid_file] followed by [delete_pid_file]
    returns and leaves every file as it was, with nothing printed. *)
Theorem create_then_delete_restores (w : World) :
  pathprovider.pidFileExists C w = false →
  (create_pid_file C;; delete_pid_file C) w = (Return tt, w).
Proof.
  intros Hex.
  pose proof (create_pid_file_run C w) as Hc. rewrite Hex in Hc.
  rewrite (bind_return _ _ _ _ _ Hc). rewrite delete_pid_file_run.
  assert (Hnow : pathprovider.pidFileExists C
                   (with_files w (<[pidFile C := PyStr.str_of_N (getpid C)]> (files w)))
                 = true).
  { unfold pathprovider.pidFileExists. cbn. rewrite lookup_insert_eq.
    by apply bool_decide_eq_true. }
  rewrite Hnow. unfold with_files. cbn.
  rewrite delete_insert_eq.
  unfold pathprovider.pidFileExists in Hex. apply bool_decide_eq_false in Hex.
  rewrite delete_id by (by apply eq_None_not_Some).
  by destruct w.
Qed.

(** X3. The marker is taken at most once: a second [create_pid_file]
    right after a successful one exits with status 1 and leaves the marker
    of the first call, with its process id, in place. *)
Theorem create_pid_file_twice (w w1 : World) :
  create_pid_file C w = (Return tt, w1) →
  create_pid_file C w1 = (Exit 1, add_trace w1 [EvStderr (pid_file_exists_text C)]) ∧
  files w1 !! pidFile C = Some (PyStr.str_of_N (getpid C)).
Proof.
  rewrite create_pid_file_run.
  destruct (pathprovider.pidFileExists C w); [discriminate|].
  intros [= <-].
  assert (Hl : files (with_files w (<[pidFile C := PyStr.str_of_N (getpid C)]> (files w)))
                 !! pidFile C = Some (PyStr.str_of_N (getpid C))).
  { cbn. apply lookup_insert_eq. }
  split; [|exact Hl].
  rewrite create_pid_file_run.
  unfold pathprovider.pidFileExists. rewrite Hl.
  by rewrite bool_decide_eq_true_2.
Qed.

(** X4. After a release the marker can be taken again: [create_pid_file]
    right after [delete_pid_file] always returns and writes the process
    id. *)
Theorem release_then_acquire (w : World) :
  ∃ w1 w2 : World,
    delete_pid_file C w = (Return tt, w1) ∧
    create_pid_file C w1 = (Return tt, w2) ∧
    files w2 = <[pidFile C := PyStr.str_of_N (getpid C)]> (files w).
Proof.
  eexists _, _. split; [apply delete_pid_file_run|].
  rewrite create_pid_file_run.
  pose proof (pidFileExists_after_delete C w) as Hgone.
  rewrite delete_pid_file_run in Hgone. cbn in Hgone. rewrite Hgone.
  split; [reflexivity|].
  destruct (pathprovider.pidFileExists C w); cbn; [|done].
  apply insert_delete_eq.
Qed.

End MarkerLifeCycle.

Lemma length_append (a b : string) :
  String.length (a +:+ b) = String.length a + String.length b.
Proof. induction a as [|c a IH]; rewrite ?append_nil, ?append_cons; cbn; congruence. Qed.

Lemma append_new_differs (path : string) : path +:+ ".new" ≠ path.
Proof.
  intros H. apply (f_equal String.length) in H.
  rewrite length_append in H. cbn in H. lia.
Qed.

Section ConfigSetup.
Context (C : Collaborators).

(** X5. With [createNewConfig] the defaults are written next to the
    configuration file, under its path with [.new] appended; the write is
    logged and the process exits with status 0 before it looks for the
    configuration file, so an existing configuration file keeps its
    content and the global [config] is not set. *)
Theorem newconfig_written_beside (browsersetup : bool)
    (cfg_override remaining : gmap string Value) (w w1 : World) :
  browser_phase C browsersetup cfg_override w = (Return remaining, w1) →
  ∃ w' : World,
    setup_config C true browsersetup cfg_override w = (Exit 0, w') ∧
    files w' = <[configurationFile C +:+ ".new" := render C (from_defaults C)]> (files w1) ∧
    files w' !! configurationFile C = files w1 !! configurationFile C ∧
    config w' = config w1 ∧
    trace w' = (trace w1 ++
      [EvLog LvlInfo ("New configuration file was written to:" +:+ linesep C +:+
                      configurationFile C +:+ ".new") []])%list.
Proof.
  unfold browser_phase, setup_config. run.
  assert (Hne : ∀ fs : gmap string string,
            <[configurationFile C +:+ ".new" := render C (from_defaults C)]> fs
              !! configurationFile C = fs !! configurationFile C).
  { intros fs. apply lookup_insert_ne, append_new_differs. }
  destruct browsersetup; cbn.
  - step; try discriminate. intros [= <- <-]. eexists. split; [reflexivity|].
    cbn. by rewrite Hne.
  - intros [= <- <-]. eexists. split; [reflexivity|]. cbn. by rewrite Hne.
Qed.

(** X6. Without a configuration file and with the fall-back path of older
    versions in use, [setup_config] prints the migration notice and exits
    with status 1; it writes no file and does not set [config]. *)
Theorem migration_notice_exit (browsersetup : bool)
    (cfg_override remaining : gmap string Value) (w w1 : World) :
  browser_phase C browsersetup cfg_override w = (Return remaining, w1) →
  pathprovider.configurationFileExists C w1 = false →
  fallbackPathInUse C w1 = true →
  setup_config C false browsersetup cfg_override w =
    (Exit 1, add_trace w1 [EvStdout (migration_notice C)]).
Proof.
  unfold browser_phase, setup_config. run.
  destruct browsersetup; cbn.
  - step; try discriminate. intros [= <- <-] Hex Hfb. cbn. by rewrite Hex, Hfb.
  - intros [= <- <-] Hex Hfb. cbn. by rewrite Hex, Hfb.
Qed.

(** X7. With a configuration file in place and no new one asked for,
    [setup_config] is [_init_config] on the overrides that are left: all
    of them outside set-up mode, all but ['server.port'] in set-up mode,
    so that a port override given in set-up mode never reaches the
    effective configuration. *)
Theorem setup_config_resolves (browsersetup : bool)
    (cfg_override remaining : gmap string Value) (w w1 : World) :
  browser_phase C browsersetup cfg_override w = (Return remaining, w1) →
  pathprovider.configurationFileExists C w1 = true →
  setup_config C false browsersetup cfg_override w = _init_config C remaining w1 ∧
  remaining = (if browsersetup then delete "server.port" cfg_override else cfg_override).
Proof.
  unfold browser_phase, setup_config. run.
  destruct browsersetup; cbn.
  - step; try discriminate. intros [= <- <-] Hex. cbn. by rewrite Hex.
  - intros [= <- <-] Hex. cbn. by rewrite Hex.
Qed.

End ConfigSetup.

Section Refresh.
Context (C : Collaborators).

(** X8. What [setup_databases] launches once the schema gate has passed:
    nothing at all for a plain start (no targets, no reset, no set-up);
    a partial update of exactly the given targets when targets are given
    and no reset is asked for, in set-up mode too; a full update in every
    other case. Outside set-up mode every launch is followed by
    [stopAndCleanUp]. *)
Theorem refresh_decision (update : option (list string))
    (dropfiledb setup : bool) (w wg : World) :
  schema_gate C dropfiledb w = (Return true, wg) →
  setup_databases C update dropfiledb setup w =
    match dropfiledb, update, setup with
    | false, None, false => (Return tt, wg)
    | false, Some (target :: targets), _ =>
        let launched :=
          add_trace wg [EvThreadStart "Updater"
                          [SQLiteCache_new; partial_update (target :: targets)]] in
        if setup then (Return tt, launched) else stopAndCleanUp C launched
    | _, _, _ =>
        let launched :=
          add_trace wg [EvThreadStart "Updater" [SQLiteCache_new; full_update]] in
        if setup then (Return tt, launched) else stopAndCleanUp C launched
    end.
Proof.
  intros Hgate. rewrite (setup_databases_passed C update dropfiledb setup _ _ Hgate).
  unfold refresh_request.
  destruct dropfiledb, update as [[|target targets]|], setup; reflexivity.
Qed.

Lemma startup_prefix_marker (createNewConfig setup : bool)
    (cfg_override : gmap string Value) (w w2 : World) :
  startup_prefix C createNewConfig setup cfg_override w = (Return tt, w2) →
  files w2 !! pidFile C = Some (PyStr.str_of_N (getpid C)).
Proof.
  unfold startup_prefix. intros H.
  apply bind_return_inv in H as (? & ? & _ & H).
  apply bind_return_inv in H as (? & ? & _ & H).
  apply bind_return_inv in H as (? & ? & _ & H).
  apply bind_return_inv in H as (? & w1 & _ & H).
  revert H. rewrite create_pid_file_run.
  destruct (pathprovider.pidFileExists C w1); [discriminate|].
  intros [= <-]. cbn. apply lookup_insert_eq.
Qed.

(** X9. An abort at the schema gate leaves the marker behind: when the
    gate returns false and has not touched the marker file itself,
    [__init__] exits with status 1 with the marker of this process still
    on disk, so that the next [create_pid_file] exits with status 1. *)
Theorem abort_leaves_marker (update : option (list string))
    (createNewConfig dropfiledb setup : bool) (cfg_override : gmap string Value)
    (w w2 wg : World) :
  startup_prefix C createNewConfig setup cfg_override w = (Return tt, w2) →
  schema_gate C dropfiledb w2 = (Return false, wg) →
  files wg !! pidFile C = files w2 !! pidFile C →
  ∃ w' : World,
    __init__ C update createNewConfig dropfiledb setup cfg_override w = (Exit 1, w') ∧
    files w' !! pidFile C = Some (PyStr.str_of_N (getpid C)) ∧
    create_pid_file C w' = (Exit 1, add_trace w' [EvStderr (pid_file_exists_text C)]).
Proof.
  intros Hprefix Hgate Hkeep.
  pose proof (setup_databases_refused C update dropfiledb setup _ _ Hgate) as Hdb.
  exists (add_trace wg [abort_log]).
  assert (Hm : files (add_trace wg [abort_log]) !! pidFile C
               = Some (PyStr.str_of_N (getpid C))).
  { cbn. rewrite Hkeep. by eapply startup_prefix_marker. }
  split; [|split; [exact Hm|]].
  - rewrite (init_after_prefix C _ _ _ _ _ _ _ Hprefix).
    exact (bind_exit _ _ _ _ _ Hdb).
  - rewrite create_pid_file_run. unfold pathprovider.pidFileExists.
    rewrite Hm. by rewrite bool_decide_eq_true_2.
Qed.

End Refresh.

(** ** Running [start_server] step by step *)

Lemma bind_inv {A B} (m : M A) (f : A → M B) (w w' : World) (o : outcome B) :
  (m ≫= f) w = (o, w') →
  (∃ a w1, m w = (Return a, w1) ∧ f a w1 = (o, w')) ∨
  (∃ o1, m w = (o1, w') ∧ failed o1 = true ∧ failed o = true).
Proof.
  unfold mbind, M_bind. destruct (m w) as [[a| |] w1] eqn:Hm.
  - intros H. left. by exists a, w1.
  - intros [= <- <-]. right. by eexists.
  - intros [= <- <-]. right. by eexists.
Qed.

Lemma emit_inv (e : event) (w w' : World) (o : outcome unit) :
  emit e w = (o, w') → o = Return tt ∧ w' = add_trace w [e].
Proof. by intros [= <- <-]. Qed.

Lemma mret_inv {A} (a : A) (w w' : World) (o : outcome A) :
  (mret a : M A) w = (o, w') → o = Return a ∧ w' = w.
Proof. by intros [= <- <-]. Qed.

Lemma get_world_inv (w w' : World) (o : outcome World) :
  get_world w = (o, w') → o = Return w ∧ w' = w.
Proof. by intros [= <- <-]. Qed.

Lemma os_mkdir_inv (path : string) (w w' : World) (o : outcome unit) :
  os_mkdir path w = (o, w') →
  o = Return tt ∧
  w' = mkWorld (files w) ({[path]} ∪ dirs w) (stdin w) (config w) (trace w).
Proof. by intros [= <- <-]. Qed.

Lemma cfg_get_inv (k : string) (w w' : World) (o : outcome Value) :
  cfg_get k w = (o, w') →
  w' = w ∧
  ((∃ s, (config w ≫= λ c, c !! k) = Some s ∧ o = Return (value s)) ∨
   failed o = true).
Proof.
  unfold cfg_get. destruct (config w) as [c|]; [|intros [= <- <-]; auto].
  cbn. destruct (c !! k) as [s|] eqn:Hk; intros [= <- <-]; [|auto].
  split; [done|]. left. by exists s.
Qed.

(** Uses what a step says about its outcome; a step that cannot fail
    closes the branch in which it is assumed to have failed. *)
Ltac use_outcome Ho :=
  try match type of Ho with
      | ?o1 = Return _ =>
          match goal with
          | Hf : failed ?o2 = true |- _ =>
              constr_eq o1 o2; rewrite Ho in Hf; discriminate Hf
          end
      end;
  lazymatch type of Ho with
  | Return ?a = Return ?b => first [is_var a; injection Ho as Ho | clear Ho]
  | _ => idtac
  end.

(** Takes a run apart into the runs of its steps, in program order; the
    worlds in between stay variables with their defining equations. *)
Ltac inv_run H :=
  lazymatch type of H with
  | mbind ?f ?m ?w = _ =>
      let H1 := fresh "Hstep" in
      let Hf := fresh "Hf" in
      apply bind_inv in H as [(? & ? & H1 & H) | (? & H & ? & Hf)];
      [cbv beta in H; inv_run H1; inv_run H
      |first [cbn in Hf; discriminate Hf | inv_run H]]
  | (if ?b then _ else _) ?w = _ =>
      let Hb := fresh "Hif" in destruct b eqn:Hb; cbv iota in H; inv_run H
  | emit _ _ = _ =>
      let Ho := fresh "Ho" in apply emit_inv in H as [Ho H]; use_outcome Ho
  | log_i _ _ _ = _ =>
      let Ho := fresh "Ho" in apply emit_inv in H as [Ho H]; use_outcome Ho
  | @mret _ _ _ _ _ = _ =>
      let Ho := fresh "Ho" in apply mret_inv in H as [Ho H]; use_outcome Ho
  | get_world _ = _ =>
      let Ho := fresh "Ho" in apply get_world_inv in H as [Ho H]; use_outcome Ho
  | os_mkdir _ _ = _ =>
      let Ho := fresh "Ho" in apply os_mkdir_inv in H as [Ho H]; use_outcome Ho
  | cfg_get _ _ = _ =>
      let Ho := fresh "Ho" in
      let Hk := fresh "Hk" in
      let Hf := fresh "Hf" in
      apply cfg_get_inv in H as [H [(? & Hk & Ho) | Hf]];
      [use_outcome Ho | try (cbn in Hf; discriminate Hf)]
  | _ => idtac
  end.

(** Brings the facts collected along one run into shape: the worlds in
    between are replaced by what they are, every read becomes a lookup in
    the configuration [c] of the initial world [w], two reads of one key
    give one value. *)
Ltac server_leaf w c Hcfg :=
  repeat match goal with
    | Heq : ?x = _ |- _ =>
        is_var x; lazymatch x with w => fail | _ => subst x end
    end;
  unfold os_path_exists in *;
  cbn [files dirs stdin config trace add_trace] in *;
  repeat match goal with
    | Hk : config w ≫= _ = Some _ |- _ => rewrite Hcfg in Hk; cbn in Hk
    end;
  repeat match goal with
    | H1 : c !! ?k = Some ?a, H2 : c !! ?k = Some ?b |- _ =>
        rewrite H1 in H2; injection H2 as <-
    end;
  repeat match goal with
    | Hb : negb _ = true |- _ => apply negb_true_iff in Hb
    | Hb : negb _ = false |- _ => apply negb_false_iff in Hb
    end.

(** Rewrites the goal with the lookups and truth values of the run and
    names the events the run added. *)
Ltac server_goal c :=
  unfold socket_host_of, lookup_truthy, lookup_value, sessiondir;
  repeat match goal with
    | Hk : c !! ?k = Some _ |- context [c !! ?k] => rewrite Hk
    end;
  cbn [value fmap option_fmap option_map];
  repeat match goal with
    | Hb : ?b = _ |- context [?b] => rewrite Hb
    end;
  rewrite <- ?app_assoc; eexists; (split; [reflexivity|]).

Section Server.
Context (C : Collaborators).

Lemma start_server_frame (httphandler : HTTPHandler) (w w' : World) (o : outcome unit) :
  start_server C httphandler w = (o, w') →
  files w' = files w ∧ stdin w' = stdin w ∧ config w' = config w ∧
  (dirs w' = dirs w ∨ dirs w' = {[sessiondir C]} ∪ dirs w) ∧
  ∃ evs : list event,
    trace w' = (trace w ++ evs)%list ∧
    (existsb is_engine_start evs = true ↔ o = Return tt).
Proof.
  intros H. unfold start_server in H. cbv zeta in H.
  inv_run H.
  all: subst; cbn [files dirs stdin config trace add_trace]; rewrite <- ?app_assoc.
  all: (split; [done|]; split; [done|]; split; [done|]; split; [by auto|];
       eexists; split; [reflexivity|]; cbn [existsb is_engine_start app orb]; split;
       [first [done | discriminate] | first [done | intros ->; discriminate]]).
Qed.

Lemma start_server_returned (httphandler : HTTPHandler) (w w' : World)
    (c : gmap string Setting) :
  config w = Some c →
  start_server C httphandler w = (Return tt, w') →
  ∃ evs : list event,
    trace w' = (trace w ++ evs)%list ∧
    cherrypy_setting "server.socket_host" evs = Some (VStr (socket_host_of c)) ∧
    cherrypy_setting "server.socket_port" evs =
      (if lookup_truthy c "server.ssl_enabled"
       then lookup_value c "server.ssl_port"
       else lookup_value c "server.port") ∧
    redirecters evs =
      (if lookup_truthy c "server.ssl_enabled"
       then (λ port, (port, socket_host_of c, 10%Z)) <$>
              option_list (lookup_value c "server.port")
       else []) ∧
    info_logs evs =
      ((λ port, "Starting server on port " +:+ str port +:+ " ...") <$>
         option_list (lookup_value c "server.port")) ∧
    last evs = Some EvEngineBlock ∧
    is_Some (lookup_value c "server.port") ∧
    (if lookup_truthy c "server.keep_session_in_ram"
     then cherrypy_setting "tools.sessions.storage_type" evs = None ∧
          dirs w' = dirs w
     else cherrypy_setting "tools.sessions.storage_type" evs = Some (VStr "file") ∧
          cherrypy_setting "tools.sessions.storage_path" evs
            = Some (VStr (sessiondir C)) ∧
          dirs w' = (if os_path_exists (sessiondir C) w
                     then dirs w else {[sessiondir C]} ∪ dirs w)).
Proof.
  intros Hcfg H. unfold start_server in H. cbv zeta in H.
  inv_run H.
  all: match goal with
       | Hc : config ?w0 = Some ?c0 |- _ => server_leaf w0 c0 Hc
       end.
  all: try congruence.
  all: match goal with
       | Hc : config ?w0 = Some ?c0 |- _ => server_goal c0
       end.
  all: repeat split; first [reflexivity | by eexists].
Qed.

End Server.

Section ServerResults.
Context (C : Collaborators).


(** X11. The address [start_server] hands to CherryPy: [localhost] when
    ['server.localhost_only'] is true, whatever the IPv6 switch says;
    otherwise [::] with IPv6 enabled and [0.0.0.0] without. *)
Theorem start_server_socket_host (httphandler : HTTPHandler) (w w' : World)
    (c : gmap string Setting) :
  config w = Some c →
  start_server C httphandler w = (Return tt, w') →
  ∃ evs : list event,
    trace w' = (trace w ++ evs)%list ∧
    cherrypy_setting "server.socket_host" evs =
      Some (VStr (if lookup_truthy c "server.localhost_only" then "localhost"
                  else if lookup_truthy c "server.ipv6_enabled" then "::"
                  else "0.0.0.0")).
Proof.
  intros Hc H. destruct (start_server_returned C _ _ _ _ Hc H) as (evs & Ht & Hh & _).
  exists evs. split; [exact Ht|]. exact Hh.
Qed.

(** X12. The port [start_server] listens on: with ['server.ssl_enabled']
    it is ['server.ssl_port'], and one redirecting server is subscribed
    on ['server.port'] with the same host and a pool of 10 threads;
    without it the port is ['server.port'] and there is no redirecting
    server. In both cases the one line logged names ['server.port']. *)
Theorem start_server_port (httphandler : HTTPHandler) (w w' : World)
    (c : gmap string Setting) :
  config w = Some c →
  start_server C httphandler w = (Return tt, w') →
  ∃ evs : list event,
    trace w' = (trace w ++ evs)%list ∧
    cherrypy_setting "server.socket_port" evs =
      (if lookup_truthy c "server.ssl_enabled"
       then lookup_value c "server.ssl_port"
       else lookup_value c "server.port") ∧
    redirecters evs =
      (if lookup_truthy c "server.ssl_enabled"
       then (λ port, (port, socket_host_of c, 10%Z)) <$>
              option_list (lookup_value c "server.port")
       else []) ∧
    info_logs evs =
      ((λ port, "Starting server on port " +:+ str port +:+ " ...") <$>
         option_list (lookup_value c "server.port")) ∧
    is_Some (lookup_value c "server.port").
Proof.
  intros Hc H.
  destruct (start_server_returned C _ _ _ _ Hc H) as (evs & Ht & _ & Hp & Hr & Hl & _ & Hport & _).
  exists evs. repeat split; try done.
Qed.

(** X13. Where [start_server] keeps sessions: with
    ['server.keep_session_in_ram'] it sets no storage and creates no
    directory; without it the storage is [file] under the session
    directory of the user data path, which is created exactly when
    nothing exists under that path yet. *)
Theorem start_server_sessions (httphandler : HTTPHandler) (w w' : World)
    (c : gmap string Setting) :
  config w = Some c →
  start_server C httphandler w = (Return tt, w') →
  ∃ evs : list event,
    trace w' = (trace w ++ evs)%list ∧
    (if lookup_truthy c "server.keep_session_in_ram"
     then cherrypy_setting "tools.sessions.storage_type" evs = None ∧
          dirs w' = dirs w
     else cherrypy_setting "tools.sessions.storage_type" evs = Some (VStr "file") ∧
          cherrypy_setting "tools.sessions.storage_path" evs
            = Some (VStr (path_join C (getUserDataPath C) "sessions")) ∧
          dirs w' = (if os_path_exists (path_join C (getUserDataPath C) "sessions") w
                     then dirs w
                     else {[path_join C (getUserDataPath C) "sessions"]} ∪ dirs w)).
Proof.
  intros Hc H.
  destruct (start_server_returned C _ _ _ _ Hc H)
    as (evs & Ht & _ & _ & _ & _ & _ & _ & Hs).
  exists evs. split; [exact Ht|]. exact Hs.
Qed.

(** X14. A [__init__] that returns has started the engine and has removed
    the marker: in the final world no marker file exists. *)
Theorem init_return_leaves_no_marker (update : option (list string))
    (createNewConfig dropfiledb setup : bool) (cfg_override : gmap string Value)
    (w w' : World) :
  __init__ C update createNewConfig dropfiledb setup cfg_override w = (Return tt, w') →
  pathprovider.pidFileExists C w' = false ∧ service_started w' = true.
Proof.
  rewrite init_split. intros H.
  apply bind_return_inv in H as (? & w2 & _ & H).
  apply bind_return_inv in H as (? & w3 & _ & H).
  unfold serve in H.
  apply bind_return_inv in H as (w3' & ? & Hg & H).
  injection Hg as <- <-.
  apply bind_return_inv in H as ([] & w4 & Hs & Hd).
  pose proof (pidFileExists_after_delete C w4) as Hgone.
  rewrite Hd in Hgone. split; [exact Hgone|].
  apply start_server_frame in Hs as (_ & _ & _ & _ & evs & Ht & Hstart).
  assert (He : existsb is_engine_start evs = true) by by apply Hstart.
  rewrite delete_pid_file_run in Hd. injection Hd as <-.
  unfold service_started.
  destruct (pathprovider.pidFileExists C w4); cbn [trace with_files add_trace];
    rewrite Ht, ?existsb_app, He; by rewrite ?orb_true_r.
Qed.

End ServerResults.

Section MoreResults.
Context (C : Collaborators).

Lemma nonempty_false {A} (l : list A) : nonempty l = false ↔ l = [].
Proof. by destruct l. Qed.

Lemma diagnostics_nil (new deprecated : list string) :
  diagnostics new deprecated = [] ↔ new = [] ∧ deprecated = [].
Proof.
  unfold diagnostics. destruct new, deprecated; cbn; split; try done.
  all: intros [? ?]; done.
Qed.

(** X15. [_check_for_config_updates] stays silent, leaving the world as it
    was, exactly when every key of the defaults that the configuration
    file lacks is hidden and every key of the file is a key of the
    defaults. *)
Theorem config_updates_silent (default known_config : gmap string Setting) (w : World) :
  _check_for_config_updates default known_config w = (Return tt, w) ↔
  (∀ k p, default !! k = Some p → known_config !! k = None → hidden p = true) ∧
  (∀ k p, known_config !! k = Some p → is_Some (default !! k)).
Proof.
  rewrite check_for_config_updates_run.
  assert (Hw : ∀ evs : list event, (Return tt, add_trace w evs) = (Return tt, w) ↔ evs = []).
  { intros evs. split.
    - intros [= Heq]. apply (f_equal trace) in Heq. cbn in Heq.
      rewrite <- (app_nil_r (trace w)) in Heq at 2. by apply app_inv_head in Heq.
    - intros ->. by rewrite add_trace_nil. }
  rewrite Hw, diagnostics_nil. split.
  - intros [Hn Hd]. split.
    + intros k p Hk Hmiss. destruct (hidden p) eqn:Hh; [done|].
      assert (Hin : transform k ∈ collect_new default known_config)
        by (apply collect_new_spec; eauto 6).
      rewrite Hn in Hin. by apply elem_of_nil in Hin.
    + intros k p Hk. destruct (default !! k) eqn:Hdk; [eauto|].
      assert (Hin : transform k ∈ collect_deprecated default known_config)
        by (apply collect_deprecated_spec; eauto).
      rewrite Hd in Hin. by apply elem_of_nil in Hin.
  - intros [Hn Hd]. split.
    + destruct (collect_new default known_config) as [|s l] eqn:Hc; [done|].
      assert (Hin : s ∈ collect_new default known_config) by (rewrite Hc; left).
      apply collect_new_spec in Hin as (k & p & Hk & Hmiss & Hh & _).
      rewrite (Hn _ _ Hk Hmiss) in Hh. discriminate.
    + destruct (collect_deprecated default known_config) as [|s l] eqn:Hc; [done|].
      assert (Hin : s ∈ collect_deprecated default known_config) by (rewrite Hc; left).
      apply collect_deprecated_spec in Hin as (k & p & Hk & Hmiss & _).
      destruct (Hd _ _ Hk) as [? Hsome]. congruence.
Qed.

Lemma partition_no_sep (sep : ascii) (s : string) :
  has_char sep s = false →
  PyStr.partition sep s = (s, EmptyString, EmptyString).
Proof.
  induction s as [|c s IH]; cbn; [done|].
  intros [Hc Hs]%orb_false_iff. rewrite Hc, IH by done. done.
Qed.

Lemma partition_first_sep (sep : ascii) (a b : string) :
  has_char sep a = false →
  PyStr.partition sep (a +:+ String sep b) = (a, String sep EmptyString, b).
Proof.
  induction a as [|c a IH]; rewrite ?append_nil, ?append_cons; cbn.
  - intros _. by rewrite Ascii.eqb_refl.
  - intros [Hc Ha]%orb_false_iff. rewrite Hc, IH by done. done.
Qed.

(** X16. How a key is shown in the reports: a key is split at its first
    dot, so [section.name] (no dot in [section]) is shown as
    [[section]: name], with any further dots left in the name, and a key
    without a dot is shown as [[key]: ] with nothing after the colon. *)
Theorem transform_splits_at_first_dot (section name : string) :
  has_char "."%char section = false →
  transform (section +:+ "." +:+ name) = "[" +:+ section +:+ "]: " +:+ name ∧
  transform section = "[" +:+ section +:+ "]: ".
Proof.
  intros Hs. unfold transform. split.
  - change ("." +:+ name) with (String "."%char name).
    by rewrite partition_first_sep.
  - by rewrite partition_no_sep.
Qed.

(** X17. Which answers grant consent, in terms of the lowercased line:
    the callback returns true exactly when the lowercased answer is a
    single [y] with nothing but white space before and after it. *)
Theorem consent_granted_shape (reasons : list string) (w : World)
    (line : list N) (rest : list (list N)) :
  stdin w = line :: rest →
  (_get_user_consent_for_db_schema_update C reasons w).1 = Return true ↔
  ∃ a b : list N,
    unicode_lower C line = (a ++ 121%N :: b)%list ∧
    PyStr.all_space a = true ∧ PyStr.all_space b = true.
Proof.
  intros Hin.
  rewrite <- (strip_single (unicode_lower C line) 121%N) by reflexivity.
  unfold _get_user_consent_for_db_schema_update, input. run. rewrite Hin. cbn.
  unfold PyStr.in_tuple. cbn [existsb]. rewrite orb_false_r.
  split.
  - intros [= Hb]. by apply bool_decide_eq_true in Hb.
  - intros Hs. by rewrite bool_decide_eq_true_2.
Qed.

(** X18. The version check at import compares the version texts character
    by character: the process exits with status 1 after printing the
    explanation exactly when the version text is empty or its first
    character sorts before [3], so that a version text beginning with
    [1], like [18.6.0], is refused as too old; any other version passes
    without a trace. *)
Theorem version_check_by_first_character (cherrypyCurrVersion : string) (w : World) :
  check_cherrypy_version cherrypyCurrVersion w =
    if match cherrypyCurrVersion with
       | EmptyString => true
       | String c _ => (N_of_ascii c <? N_of_ascii "3")%N
       end
    then (Exit 1, add_trace w [EvStdout (version_too_old_text cherrypyCurrVersion)])
    else (Return tt, w).
Proof.
  unfold check_cherrypy_version, cherrypyReqVersion, String.ltb.
  destruct cherrypyCurrVersion as [|c rest]; [reflexivity|].
  cbn [String.compare]. unfold Ascii.compare, N.ltb.
  destruct (N_of_ascii c ?= N_of_ascii "3")%N; [|reflexivity|reflexivity].
  by destruct rest.
Qed.

End MoreResults.

(** ** The further properties on the concrete deployment *)

Lemma create_then_delete_restores_witness :
  pathprovider.pidFileExists Sample.collab Sample.configured = false ∧
  (create_pid_file Sample.collab;; delete_pid_file Sample.collab) Sample.configured =
    (Return tt, Sample.configured).
Proof.
  assert (H : pathprovider.pidFileExists Sample.collab Sample.configured = false)
    by (vm_compute; reflexivity).
  split; [exact H|].
  exact (create_then_delete_restores Sample.collab Sample.configured H).
Defined.

Lemma create_pid_file_twice_witness :
  let w1 := (create_pid_file Sample.collab Sample.configured).2 in
  create_pid_file Sample.collab Sample.configured = (Return tt, w1) ∧
  create_pid_file Sample.collab w1 =
    (Exit 1, add_trace w1 [EvStderr (pid_file_exists_text Sample.collab)]) ∧
  files w1 !! pidFile Sample.collab = Some (PyStr.str_of_N (getpid Sample.collab)).
Proof.
  intros w1.
  assert (H : create_pid_file Sample.collab Sample.configured = (Return tt, w1))
    by (vm_compute; reflexivity).
  split; [exact H|].
  exact (create_pid_file_twice Sample.collab Sample.configured w1 H).
Defined.

Lemma newconfig_written_beside_witness :
  browser_phase Sample.collab false ∅ Sample.configured = (Return ∅, Sample.configured) ∧
  ∃ w' : World,
    setup_config Sample.collab true false ∅ Sample.configured = (Exit 0, w') ∧
    files w' = <[configurationFile Sample.collab +:+ ".new" :=
                   render Sample.collab (from_defaults Sample.collab)]>
                 (files Sample.configured) ∧
    files w' !! configurationFile Sample.collab =
      files Sample.configured !! configurationFile Sample.collab ∧
    config w' = config Sample.configured ∧
    trace w' = (trace Sample.configured ++
      [EvLog LvlInfo ("New configuration file was written to:" +:+ linesep Sample.collab +:+
                      configurationFile Sample.collab +:+ ".new") []])%list.
Proof.
  assert (H : browser_phase Sample.collab false ∅ Sample.configured
              = (Return ∅, Sample.configured)) by reflexivity.
  split; [exact H|].
  exact (newconfig_written_beside Sample.collab false ∅ ∅ _ _ H).
Defined.

Lemma migration_notice_exit_witness :
  browser_phase Sample.collab false ∅ Sample.legacy = (Return ∅, Sample.legacy) ∧
  pathprovider.configurationFileExists Sample.collab Sample.legacy = false ∧
  fallbackPathInUse Sample.collab Sample.legacy = true ∧
  setup_config Sample.collab false false ∅ Sample.legacy =
    (Exit 1, add_trace Sample.legacy [EvStdout (migration_notice Sample.collab)]).
Proof.
  assert (H1 : browser_phase Sample.collab false ∅ Sample.legacy
               = (Return ∅, Sample.legacy)) by reflexivity.
  assert (H2 : pathprovider.configurationFileExists Sample.collab Sample.legacy = false)
    by (vm_compute; reflexivity).
  assert (H3 : fallbackPathInUse Sample.collab Sample.legacy = true)
    by (vm_compute; reflexivity).
  split; [exact H1|]. split; [exact H2|]. split; [exact H3|].
  exact (migration_notice_exit Sample.collab false ∅ ∅ _ _ H1 H2 H3).
Defined.

Lemma setup_config_resolves_witness :
  let cfg_override : gmap string Value :=
    list_to_map [("server.port", VInt 7777); ("media.basedir", VStr "/srv/music")] in
  let b := browser_phase Sample.collab true cfg_override Sample.configured in
  browser_phase Sample.collab true cfg_override Sample.configured =
    (Return {["media.basedir" := VStr "/srv/music"]}, b.2) ∧
  pathprovider.configurationFileExists Sample.collab b.2 = true ∧
  setup_config Sample.collab false true cfg_override Sample.configured =
    _init_config Sample.collab {["media.basedir" := VStr "/srv/music"]} b.2 ∧
  ({["media.basedir" := VStr "/srv/music"]} : gmap string Value) =
    delete "server.port" cfg_override.
Proof.
  intros cfg_override b.
  assert (H1 : browser_phase Sample.collab true cfg_override Sample.configured =
               (Return {["media.basedir" := VStr "/srv/music"]}, b.2))
    by (vm_compute; reflexivity).
  assert (H2 : pathprovider.configurationFileExists Sample.collab b.2 = true)
    by (vm_compute; reflexivity).
  split; [exact H1|]. split; [exact H2|].
  exact (setup_config_resolves Sample.collab true cfg_override _ _ _ H1 H2).
Defined.

Lemma refresh_decision_witness :
  let w := Sample.configured in
  let wg := (schema_gate Sample.collab false w).2 in
  schema_gate Sample.collab false w = (Return true, wg) ∧
  setup_databases Sample.collab (Some ["/music/new"]) false true w =
    (Return tt,
     add_trace wg [EvThreadStart "Updater"
                     [SQLiteCache_new; partial_update ["/music/new"]]]).
Proof.
  intros w wg.
  assert (H : schema_gate Sample.collab false w = (Return true, wg))
    by (vm_compute; reflexivity).
  split; [exact H|].
  exact (refresh_decision Sample.collab (Some ["/music/new"]) false true w wg H).
Defined.

Lemma abort_leaves_marker_witness :
  let w := Sample.stale "n" in
  let w2 := (startup_prefix Sample.collab false false ∅ w).2 in
  let wg := (schema_gate Sample.collab false w2).2 in
  startup_prefix Sample.collab false false ∅ w = (Return tt, w2) ∧
  schema_gate Sample.collab false w2 = (Return false, wg) ∧
  files wg !! pidFile Sample.collab = files w2 !! pidFile Sample.collab ∧
  ∃ w' : World,
    __init__ Sample.collab None false false false ∅ w = (Exit 1, w') ∧
    files w' !! pidFile Sample.collab = Some (PyStr.str_of_N (getpid Sample.collab)) ∧
    create_pid_file Sample.collab w' =
      (Exit 1, add_trace w' [EvStderr (pid_file_exists_text Sample.collab)]).
Proof.
  intros w w2 wg.
  assert (H1 : startup_prefix Sample.collab false false ∅ w = (Return tt, w2))
    by (vm_compute; reflexivity).
  assert (H2 : schema_gate Sample.collab false w2 = (Return false, wg))
    by (vm_compute; reflexivity).
  assert (H3 : files wg !! pidFile Sample.collab = files w2 !! pidFile Sample.collab)
    by (vm_compute; reflexivity).
  split; [exact H1|]. split; [exact H2|]. split; [exact H3|].
  exact (abort_leaves_marker Sample.collab None false false false ∅ w w2 wg H1 H2 H3).
Defined.


Lemma start_server_socket_host_witness :
  let w := Sample.resolved in
  let c := Sample.config_of Sample.resolved in
  let h := mkHTTPHandler (config w) in
  let w' := (start_server Sample.collab h w).2 in
  config w = Some c ∧
  start_server Sample.collab h w = (Return tt, w') ∧
  ∃ evs : list event,
    trace w' = (trace w ++ evs)%list ∧
    cherrypy_setting "server.socket_host" evs =
      Some (VStr (if lookup_truthy c "server.localhost_only" then "localhost"
                  else if lookup_truthy c "server.ipv6_enabled" then "::"
                  else "0.0.0.0")).
Proof.
  intros w c h w'.
  assert (H1 : config w = Some c) by (vm_compute; reflexivity).
  assert (H2 : start_server Sample.collab h w = (Return tt, w'))
    by (vm_compute; reflexivity).
  split; [exact H1|]. split; [exact H2|].
  exact (start_server_socket_host Sample.collab h w w' c H1 H2).
Defined.

Lemma start_server_port_witness :
  let w := Sample.resolved_tls in
  let c := Sample.config_of Sample.resolved_tls in
  let h := mkHTTPHandler (config w) in
  let w' := (start_server Sample.collab h w).2 in
  config w = Some c ∧
  start_server Sample.collab h w = (Return tt, w') ∧
  ∃ evs : list event,
    trace w' = (trace w ++ evs)%list ∧
    cherrypy_setting "server.socket_port" evs =
      (if lookup_truthy c "server.ssl_enabled"
       then lookup_value c "server.ssl_port"
       else lookup_value c "server.port") ∧
    redirecters evs =
      (if lookup_truthy c "server.ssl_enabled"
       then (λ port, (port, socket_host_of c, 10%Z)) <$>
              option_list (lookup_value c "server.port")
       else []) ∧
    info_logs evs =
      ((λ port, "Starting server on port " +:+ str port +:+ " ...") <$>
         option_list (lookup_value c "server.port")) ∧
    is_Some (lookup_value c "server.port").
Proof.
  intros w c h w'.
  assert (H1 : config w = Some c) by (vm_compute; reflexivity).
  assert (H2 : start_server Sample.collab h w = (Return tt, w'))
    by (vm_compute; reflexivity).
  split; [exact H1|]. split; [exact H2|].
  exact (start_server_port Sample.collab h w w' c H1 H2).
Defined.

Lemma start_server_sessions_witness :
  let w := Sample.resolved in
  let c := Sample.config_of Sample.resolved in
  let h := mkHTTPHandler (config w) in
  let w' := (start_server Sample.collab h w).2 in
  config w = Some c ∧
  start_server Sample.collab h w = (Return tt, w') ∧
  ∃ evs : list event,
    trace w' = (trace w ++ evs)%list ∧
    (if lookup_truthy c "server.keep_session_in_ram"
     then cherrypy_setting "tools.sessions.storage_type" evs = None ∧
          dirs w' = dirs w
     else cherrypy_setting "tools.sessions.storage_type" evs = Some (VStr "file") ∧
          cherrypy_setting "tools.sessions.storage_path" evs
            = Some (VStr (path_join Sample.collab (getUserDataPath Sample.collab) "sessions")) ∧
          dirs w' =
            (if os_path_exists
                  (path_join Sample.collab (getUserDataPath Sample.collab) "sessions") w
             then dirs w
             else {[path_join Sample.collab (getUserDataPath Sample.collab) "sessions"]}
                  ∪ dirs w)).
Proof.
  intros w c h w'.
  assert (H1 : config w = Some c) by (vm_compute; reflexivity).
  assert (H2 : start_server Sample.collab h w = (Return tt, w'))
    by (vm_compute; reflexivity).
  split; [exact H1|]. split; [exact H2|].
  exact (start_server_sessions Sample.collab h w w' c H1 H2).
Defined.

Lemma init_return_leaves_no_marker_witness :
  let w' := (__init__ Sample.collab None false false false ∅ Sample.configured).2 in
  __init__ Sample.collab None false false false ∅ Sample.configured = (Return tt, w') ∧
  pathprovider.pidFileExists Sample.collab w' = false ∧ service_started w' = true.
Proof.
  intros w'.
  assert (H : __init__ Sample.collab None false false false ∅ Sample.configured
              = (Return tt, w')) by (vm_compute; reflexivity).
  split; [exact H|].
  exact (init_return_leaves_no_marker Sample.collab None false false false ∅ _ w' H).
Defined.

Lemma transform_splits_at_first_dot_witness :
  has_char "."%char "server" = false ∧
  transform ("server" +:+ "." +:+ "ssl.port") = "[" +:+ "server" +:+ "]: " +:+ "ssl.port" ∧
  transform "server" = "[" +:+ "server" +:+ "]: ".
Proof.
  assert (H : has_char "."%char "server" = false) by reflexivity.
  split; [exact H|].
  exact (transform_splits_at_first_dot "server" "ssl.port" H).
Defined.

Lemma consent_granted_shape_witness :
  stdin (Sample.stale_typed [160; 89; 10]%N) = [[160; 89; 10]%N] ∧
  ((_get_user_consent_for_db_schema_update Sample.collab []
      (Sample.stale_typed [160; 89; 10]%N)).1 = Return true ↔
   ∃ a b : list N,
     unicode_lower Sample.collab [160; 89; 10]%N = (a ++ 121%N :: b)%list ∧
     PyStr.all_space a = true ∧ PyStr.all_space b = true).
Proof.
  assert (H : stdin (Sample.stale_typed [160; 89; 10]%N) = [[160; 89; 10]%N])
    by reflexivity.
  split; [exact H|].
  exact (consent_granted_shape Sample.collab [] _ _ [] H).
Defined.

Example version_18_is_refused :
  (check_cherrypy_version "18.6.0" Sample.fresh).1 = Exit 1 ∧
  (check_cherrypy_version "3.2.2" Sample.fresh).1 = Return tt.
Proof. vm_compute. split; reflexivity. Qed.
